(** * Weather Forecast Tool: a shallow embedding of [project_code.py]

    The development models the logic of the program (the validators, the
    geocoder, the two forecast clients, the merger, the icon selector and
    the submit handler that chains them) and proves the properties its
    specification states about them, and further properties of the code.

    Modelling conventions.
    - Python values that travel through the program (decoded JSON, the
      forecast dictionaries) are values of [pyval]; a [dict] is a finite
      map with string keys.
    - Numbers are Python's: an [int] is an integer of any size and a
      [float] is a binary64 value, with its rounding, its infinities and
      NaN (Rocq's primitive floats). The sum of two ints is exact, [/] is
      true division and always gives a float, an int that meets a float is
      converted first, and the conversion and the division of ints raise
      [OverflowError] past the float range. Comparisons are by exact
      value.
    - A text is a string of characters with code points below 256, the
      characters of Rocq's [string]; white space is what [str.isspace]
      says of them.
    - A Python exception is the [Raise] outcome of a computation, and a
      [try ... except E] is a handler that catches [E] only.
    - The network and the clock are inputs: a function from requests to
      the outcome of [requests.get(url).json()], and the value of
      [datetime.today().date()].
    - What the submit handler does to the window is the list of its
      dialogs and widget updates, in order, with the way it ends. The
      image files of the icons are taken to be in place. *)

From stdpp Require Import gmap strings list fin_maps numbers.
From Stdlib Require Import ZArith Lia Ascii Floats.

#[local] Set Warnings "-register-all,-inexact-float".
#[local] Open Scope Z_scope.

(** ** Python values and exceptions *)

Inductive pyval : Type :=
  | PNone
  | PBool (b : bool)
  | PInt (z : Z)
  | PFloat (f : float)
  | PStr (s : string)
  | PList (l : list pyval)
  | PDict (d : gmap string pyval).

(** The exceptions the program can meet. [RequestException] stands for
    the base class of [requests] and all its subclasses (connection
    errors, timeouts, a body that is not JSON). *)
Inductive exn : Type :=
  | RequestException
  | ValueError
  | KeyError
  | IndexError
  | TypeError
  | AttributeError
  | OverflowError.

Inductive outcome (A : Type) : Type :=
  | Ret (a : A)
  | Raise (e : exn).
Arguments Ret {A} a.
Arguments Raise {A} e.

#[global] Instance outcome_ret : MRet outcome := fun _ a => Ret a.
#[global] Instance outcome_bind : MBind outcome := fun _ _ f m =>
  match m with
  | Ret a => f a
  | Raise e => Raise e
  end.

#[global] Instance outcome_fmap : FMap outcome := fun _ _ f m =>
  match m with
  | Ret a => Ret (f a)
  | Raise e => Raise e
  end.

#[global] Instance exn_eq_dec : EqDecision exn.
Proof. solve_decision. Defined.

(** An integer literal of the source. *)
Definition num (z : Z) : pyval := PInt z.

(** ** Numbers: [int] and [float] *)

Inductive number : Type :=
  | NInt (z : Z)
  | NFloat (f : float).

(** The number an object is, when it is one; [bool] is a subclass of
    [int]. *)
Definition as_number (v : pyval) : option number :=
  match v with
  | PInt z => Some (NInt z)
  | PFloat f => Some (NFloat f)
  | PBool b => Some (NInt (if b then 1 else 0))
  | _ => None
  end.

(** The least magnitude that rounds past the largest float: half-way
    between [sys.float_info.max] and [2**1024]. *)
Definition float_overflow : Z := 2 ^ 1024 - 2 ^ 970.

(** [float(z)]: the nearest float, ties to even; [OverflowError] when
    that would be infinite. *)
Definition float_of_int (z : Z) : outcome float :=
  if Z.abs z <? float_overflow
  then Ret (SF2Prim (binary_normalize prec emax z 0 false))
  else Raise OverflowError.

(** An integer as an unrounded operand of the division. *)
Definition int_operand (z : Z) : spec_float :=
  match z with
  | 0 => S754_zero false
  | Z.pos m => S754_finite false m 0
  | Z.neg m => S754_finite true m 0
  end.

(** [a / b] on ints, for [b] other than zero: the float nearest to the
    quotient, ties to even; [OverflowError] when that would be infinite. *)
Definition int_truediv (a b : Z) : outcome float :=
  if Z.abs a <? float_overflow * Z.abs b
  then Ret (SF2Prim (SFdiv prec emax (int_operand a) (int_operand b)))
  else Raise OverflowError.

(** [a + b] *)
Definition py_add (a b : number) : outcome number :=
  match a, b with
  | NInt x, NInt y => Ret (NInt (x + y))
  | NInt x, NFloat y => x' ← float_of_int x; Ret (NFloat (PrimFloat.add x' y))
  | NFloat x, NInt y => y' ← float_of_int y; Ret (NFloat (PrimFloat.add x y'))
  | NFloat x, NFloat y => Ret (NFloat (PrimFloat.add x y))
  end.

(** [a * b] *)
Definition py_mul (a b : number) : outcome number :=
  match a, b with
  | NInt x, NInt y => Ret (NInt (x * y))
  | NInt x, NFloat y => x' ← float_of_int x; Ret (NFloat (PrimFloat.mul x' y))
  | NFloat x, NInt y => y' ← float_of_int y; Ret (NFloat (PrimFloat.mul x y'))
  | NFloat x, NFloat y => Ret (NFloat (PrimFloat.mul x y))
  end.

(** [a / d], for [d] an integer literal other than zero. *)
Definition py_truediv (a : number) (d : Z) : outcome float :=
  match a with
  | NInt x => int_truediv x d
  | NFloat x => d' ← float_of_int d; Ret (PrimFloat.div x d')
  end.

(** The exact value of a number: [m * 2^e], an infinity, or NaN. *)
Inductive value : Type :=
  | VFinite (m e : Z)
  | VInfinite (negative : bool)
  | VNaN.

Definition value_of (n : number) : value :=
  match n with
  | NInt z => VFinite z 0
  | NFloat f =>
      match Prim2SF f with
      | S754_zero _ => VFinite 0 0
      | S754_infinity s => VInfinite s
      | S754_nan => VNaN
      | S754_finite s m e => VFinite (cond_Zopp s (Z.pos m)) e
      end
  end.

(** The order of two numbers, ints and floats alike: that of their exact
    values; NaN is not ordered with anything. *)
Definition value_compare (a b : value) : option comparison :=
  match a, b with
  | VNaN, _ | _, VNaN => None
  | VInfinite s1, VInfinite s2 =>
      Some (if s1 then (if s2 then Eq else Lt) else (if s2 then Gt else Eq))
  | VInfinite s, VFinite _ _ => Some (if s then Lt else Gt)
  | VFinite _ _, VInfinite s => Some (if s then Gt else Lt)
  | VFinite m1 e1, VFinite m2 e2 =>
      let e := Z.min e1 e2 in
      Some (m1 * 2 ^ (e1 - e) ?= m2 * 2 ^ (e2 - e))
  end.

Definition num_compare (a b : number) : option comparison :=
  value_compare (value_of a) (value_of b).

(** [a == b], [a < b] and [a <= b] on numbers. *)
Definition num_eqb (a b : number) : bool :=
  match num_compare a b with
  | Some Eq => true
  | _ => false
  end.

Definition num_ltb (a b : number) : bool :=
  match num_compare a b with
  | Some Lt => true
  | _ => false
  end.

Definition num_leb (a b : number) : bool :=
  match num_compare a b with
  | Some Lt | Some Eq => true
  | _ => false
  end.

(** Truth value of an object, as tested by [if x], [x and y], [x or y]. *)
Definition truthy (v : pyval) : bool :=
  match v with
  | PNone => false
  | PBool b => b
  | PInt z => negb (z =? 0)
  | PFloat f => negb (num_eqb (NFloat f) (NInt 0))
  | PStr s => negb (bool_decide (s = ""))
  | PList l => negb (bool_decide (l = []))
  | PDict d => negb (bool_decide (d = ∅))
  end.

(** [d.get(k)], with [None] for a missing key. *)
Definition dict_get (d : gmap string pyval) (k : string) : pyval :=
  default PNone (d !! k).

(** [d.get(k, dflt)]. *)
Definition dict_get_default (d : gmap string pyval) (k : string)
    (dflt : pyval) : pyval :=
  default dflt (d !! k).

(** [v.get(k, dflt)] on an arbitrary object: only a [dict] has [get]. *)
Definition py_get (v : pyval) (k : string) (dflt : pyval) : outcome pyval :=
  match v with
  | PDict d => Ret (dict_get_default d k dflt)
  | _ => Raise AttributeError
  end.

(** ** The merger: [calculate_forecast] *)

(** [(value1 + value2) / 2]: an operand that is not a number makes the
    sum or the division raise [TypeError]; the quotient is a float. *)
Definition mean2 (value1 value2 : pyval) : outcome pyval :=
  match as_number value1, as_number value2 with
  | Some a, Some b =>
      total ← py_add a b;
      half ← py_truediv total 2;
      Ret (PFloat half)
  | _, _ => Raise TypeError
  end.

Definition safe_average (value1 value2 : pyval) : outcome pyval :=
  match value1, value2 with
  | PNone, PNone => Ret (num 0)
  | PNone, _ => Ret value2
  | _, PNone => Ret value1
  | _, _ => mean2 value1 value2
  end.

Definition make_forecast (max_temp min_temp precipitation : pyval)
    : gmap string pyval :=
  {[ "max_temp" := max_temp; "min_temp" := min_temp;
     "precipitation" := precipitation ]}.

Definition zero_forecast : gmap string pyval :=
  make_forecast (num 0) (num 0) (num 0).

(** [forecast or {"max_temp": 0, "min_temp": 0, "precipitation": 0}],
    for [forecast] a dictionary or [None]. *)
Definition or_zero_forecast (forecast : option (gmap string pyval))
    : gmap string pyval :=
  match forecast with
  | None => zero_forecast
  | Some d => if truthy (PDict d) then d else zero_forecast
  end.

Definition calculate_forecast (forecast1 forecast2 : option (gmap string pyval))
    : outcome (gmap string pyval) :=
  match forecast1, forecast2 with
  | None, _ => Ret (or_zero_forecast forecast2)
  | Some _, None => Ret (or_zero_forecast forecast1)
  | Some d1, Some d2 =>
      max_temp ← safe_average (dict_get d1 "max_temp") (dict_get d2 "max_temp");
      min_temp ← safe_average (dict_get d1 "min_temp") (dict_get d2 "min_temp");
      precipitation ← safe_average (dict_get d1 "precipitation")
                                   (dict_get d2 "precipitation");
      Ret (make_forecast max_temp min_temp precipitation)
  end.

(** ** The icon selector: [get_weather_icon]

    The file name chosen by the threshold chain; loading and resizing the
    image belong to the display. *)
Definition get_weather_icon (precipitation : number) : string :=
  if num_eqb precipitation (NInt 0) then "sun.png"
  else if num_ltb (NInt 0) precipitation
          && num_leb precipitation (NInt 2) then "cloudy.png"
  else if num_ltb (NInt 2) precipitation
          && num_leb precipitation (NInt 10) then "rain.png"
  else "snow.png".

(** ** Calendar dates: [datetime.date] *)

Record date : Type := mkdate { year : Z; month : Z; day : Z }.

#[global] Instance date_eq_dec : EqDecision date.
Proof. solve_decision. Defined.

Definition is_leap (y : Z) : bool :=
  (y mod 4 =? 0) && (negb (y mod 100 =? 0) || (y mod 400 =? 0)).

Definition days_in_month (y m : Z) : Z :=
  if m =? 2 then (if is_leap y then 29 else 28)
  else if (m =? 4) || (m =? 6) || (m =? 9) || (m =? 11) then 30
  else 31.

(** The range checks of the [date] constructor: [MINYEAR = 1] and
    [MAXYEAR = 9999]. *)
Definition valid_ymd (y m d : Z) : bool :=
  (1 <=? y) && (y <=? 9999) && (1 <=? m) && (m <=? 12)
  && (1 <=? d) && (d <=? days_in_month y m).

Definition valid_date (d : date) : bool := valid_ymd (year d) (month d) (day d).

(** [date(y, m, d)]: [ValueError] outside the ranges. *)
Definition make_date (y m d : Z) : outcome date :=
  if valid_ymd y m d then Ret (mkdate y m d) else Raise ValueError.

(** [d.replace(year=y)] builds a new date from the changed fields. *)
Definition date_replace_year (d : date) (y : Z) : outcome date :=
  make_date y (month d) (day d).

(** [a < b] on dates: the order of [(year, month, day)]. *)
Definition date_ltb (a b : date) : bool :=
  (year a <? year b)
  || ((year a =? year b)
      && ((month a <? month b)
          || ((month a =? month b) && (day a <? day b)))).

(** [str(d)], that is [d.isoformat()]: [%04d-%02d-%02d]. *)
Definition digit_char (z : Z) : ascii := ascii_of_nat (Z.to_nat (48 + z mod 10)).

Definition pad2 (z : Z) : string :=
  String (digit_char (z / 10)) (String (digit_char z) "").

Definition pad4 (z : Z) : string :=
  String (digit_char (z / 1000)) (String (digit_char (z / 100)) (pad2 z)).

Definition isoformat (d : date) : string :=
  pad4 (year d) +:+ "-" +:+ pad2 (month d) +:+ "-" +:+ pad2 (day d).

(** ** Parsing: [datetime.strptime(text, "%Y-%m-%d").date()]

    [strptime] compiles the format into the regular expression
    [(?P<Y>\d\d\d\d)-(?P<m>1[0-2]|0[1-9]|[1-9])-(?P<d>3[0-1]|[1-2]\d|0[1-9]|[1-9]| [1-9])],
    matches it at the start of the text, rejects a match that leaves text
    unconsumed, and builds the date from the three groups. A regular
    expression is modelled as a backtracking matcher: the list of its
    matches at the head of the text, in the order the engine tries them.
    Among the characters below 256 the class [\d] holds the ten ASCII
    digits only. *)

Definition matcher (A : Type) : Type := string → list (A * string).

Definition in_range (lo hi : ascii) (c : ascii) : bool :=
  (nat_of_ascii lo <=? nat_of_ascii c)%nat && (nat_of_ascii c <=? nat_of_ascii hi)%nat.

(** One character of a class. *)
Definition one (cls : ascii → bool) : matcher ascii := fun s =>
  match s with
  | String c rest => if cls c then [(c, rest)] else []
  | EmptyString => []
  end.

Definition then_ {A B C : Type} (f : A → B → C) (p : matcher A) (q : matcher B)
    : matcher C := fun s =>
  flat_map (fun '(a, s1) => map (fun '(b, s2) => (f a b, s2)) (q s1)) (p s).

(** Alternation [p|q]: the matches of [p] are tried first. *)
Definition or_ {A : Type} (p q : matcher A) : matcher A := fun s => p s ++ q s.

Definition digit_val (c : ascii) : Z := Z.of_nat (nat_of_ascii c) - 48.

Definition two_digits (c1 c2 : ascii) : Z := 10 * digit_val c1 + digit_val c2.

(** A group of one digit, read as a number. *)
Definition one_digit (cls : ascii → bool) : matcher Z := fun s =>
  map (fun '(c, rest) => (digit_val c, rest)) (one cls s).

(** [\d\d\d\d] *)
Definition re_Y : matcher Z :=
  then_ (fun hi lo => 100 * hi + lo)
    (then_ two_digits (one (in_range "0" "9")) (one (in_range "0" "9")))
    (then_ two_digits (one (in_range "0" "9")) (one (in_range "0" "9"))).

(** [1[0-2]|0[1-9]|[1-9]] *)
Definition re_m : matcher Z :=
  or_ (then_ two_digits (one (in_range "1" "1")) (one (in_range "0" "2")))
 (or_ (then_ two_digits (one (in_range "0" "0")) (one (in_range "1" "9")))
      (one_digit (in_range "1" "9"))).

(** [3[0-1]|[1-2]\d|0[1-9]|[1-9]| [1-9]]; [int] skips the blank of the
    last alternative. *)
Definition re_d : matcher Z :=
  or_ (then_ two_digits (one (in_range "3" "3")) (one (in_range "0" "1")))
 (or_ (then_ two_digits (one (in_range "1" "2")) (one (in_range "0" "9")))
 (or_ (then_ two_digits (one (in_range "0" "0")) (one (in_range "1" "9")))
 (or_ (one_digit (in_range "1" "9"))
      (then_ (fun _ d => d) (one (in_range " " " ")) (one_digit (in_range "1" "9")))))).

Definition re_dash : matcher ascii := one (in_range "-" "-").

Definition re_Ymd : matcher (Z * Z * Z) :=
  then_ (fun ym d => (ym, d))
    (then_ (fun y m => (y, m)) (then_ (fun y _ => y) re_Y re_dash)
                               (then_ (fun m _ => m) re_m re_dash))
    re_d.

Definition strptime_date (text : string) : outcome date :=
  match re_Ymd text with
  | [] => Raise ValueError
  | (y, m, d, rest) :: _ =>
      if bool_decide (rest = "") then make_date y m d else Raise ValueError
  end.

(** ** The validators *)

Definition PastDate : string := "The date cannot be in the past.".

Definition TooFarFuture (max_forecast_date : date) : string :=
  "The date is too far in the future. Maximum allowed: "
  +:+ isoformat max_forecast_date +:+ ".".

Definition InvalidFormat : string := "Invalid date format. Please use YYYY-MM-DD.".

(** The body of the [try] block of [validate_date]. *)
Definition validate_date_try (today : date) (text : string)
    : outcome (option string) :=
  forecast_date ← strptime_date text;
  max_forecast_date ← date_replace_year today (year today + 1);
  if date_ltb forecast_date today then Ret (Some PastDate)
  else if date_ltb max_forecast_date forecast_date
       then Ret (Some (TooFarFuture max_forecast_date))
  else Ret None.

(** [validate_date], with [today] the value of [datetime.today().date()];
    [except ValueError] turns that exception into the format message. *)
Definition validate_date (today : date) (text : string) : outcome (option string) :=
  match validate_date_try today text with
  | Raise ValueError => Ret (Some InvalidFormat)
  | r => r
  end.

Definition VALID_PHONE_COUNTRY_CODES : gmap string string :=
  {[ "1" := "United States/Canada"; "91" := "India"; "44" := "United Kingdom";
     "86" := "China"; "7" := "Russia" ]}.

Definition UnknownCode (code : string) : string :=
  "Invalid country code: " +:+ code +:+ ".".

Definition validate_phone_country_code (code : string) : option string :=
  if bool_decide (VALID_PHONE_COUNTRY_CODES !! code = None)
  then Some (UnknownCode code) else None.

(** ** Subscripts and membership on decoded JSON *)

(** [k in v], for a string [k]: key membership on a [dict], element
    membership on a [list], substring test on a [str]; other objects are
    not iterable. *)
Definition py_contains (k : string) (v : pyval) : outcome bool :=
  match v with
  | PDict d => Ret (bool_decide (is_Some (d !! k)))
  | PList l =>
      Ret (existsb (fun x => match x with
                             | PStr s => bool_decide (s = k)
                             | _ => false
                             end) l)
  | PStr s => Ret (bool_decide (is_Some (String.index 0 k s)))
  | _ => Raise TypeError
  end.

(** [v[k]], for a string [k]: only a [dict] takes a string subscript. *)
Definition py_getitem (k : string) (v : pyval) : outcome pyval :=
  match v with
  | PDict d =>
      match d !! k with
      | Some x => Ret x
      | None => Raise KeyError
      end
  | _ => Raise TypeError
  end.

(** [v[0]]: the first element of a [list], the first character of a
    [str]; a decoded JSON object has string keys only, so [0] is never
    one of its keys. *)
Definition py_getitem_0 (v : pyval) : outcome pyval :=
  match v with
  | PList (x :: _) => Ret x
  | PList [] => Raise IndexError
  | PStr (String c _) => Ret (PStr (String c ""))
  | PStr EmptyString => Raise IndexError
  | PDict _ => Raise KeyError
  | _ => Raise TypeError
  end.

(** [except requests.RequestException], followed by the [return None]
    that ends both clients. *)
Definition except_RequestException {A : Type} (body : outcome (option A))
    : outcome (option A) :=
  match body with
  | Raise RequestException => Ret None
  | r => r
  end.

(** ** The geocoder and the forecast clients *)

(** The three endpoints, with the values interpolated into the URL. *)
Inductive request : Type :=
  | GeocodingSearch (city country : string)
  | OpenMeteoForecast (lat lon : pyval) (date : string)
  | OneCallTimemachine (lat lon : pyval) (api_key date : string).

Section Network.

(** The outcome of [requests.get(url, verify=False)] followed by
    [response.json()]: the decoded body, or the exception raised. *)
Variable http_json : request → outcome pyval.

Definition get_coordinates (city country : string) : outcome (pyval * pyval) :=
  data ← http_json (GeocodingSearch city country);
  has_results ← py_contains "results" data;
  (* [A and B]: [B] is evaluated only when [A] is true *)
  results_nonempty ← (if has_results : bool
                      then truthy <$> py_getitem "results" data
                      else Ret false);
  if results_nonempty : bool then
    location ← py_getitem "results" data ≫= py_getitem_0;
    latitude ← py_get location "latitude" PNone;
    longitude ← py_get location "longitude" PNone;
    Ret (latitude, longitude)
  else Ret (PNone, PNone).

Definition get_weather_open_meteo_try (lat lon : pyval) (date : string)
    : outcome (option (gmap string pyval)) :=
  data ← http_json (OpenMeteoForecast lat lon date);
  daily_data ← py_get data "daily" PNone;
  if truthy daily_data then
    max_temp ← py_getitem "temperature_2m_max" daily_data ≫= py_getitem_0;
    min_temp ← py_getitem "temperature_2m_min" daily_data ≫= py_getitem_0;
    precipitation ← py_getitem "precipitation_sum" daily_data ≫= py_getitem_0;
    Ret (Some (make_forecast max_temp min_temp precipitation))
  else Ret None.

Definition get_weather_open_meteo (lat lon : pyval) (date : string)
    : outcome (option (gmap string pyval)) :=
  except_RequestException (get_weather_open_meteo_try lat lon date).

Definition get_weather_openweathermap_try (lat lon : pyval)
    (api_key date : string) : outcome (option (gmap string pyval)) :=
  data ← http_json (OneCallTimemachine lat lon api_key date);
  current_data ← py_get data "current" (PDict ∅);
  max_temp ← py_get current_data "temp" PNone;
  min_temp ← py_get current_data "temp" PNone;
  rain ← py_get current_data "rain" (PDict ∅);
  precipitation ← py_get rain "1h" (num 0);
  Ret (Some (make_forecast max_temp min_temp precipitation)).

Definition get_weather_openweathermap (lat lon : pyval)
    (api_key date : string) : outcome (option (gmap string pyval)) :=
  except_RequestException (get_weather_openweathermap_try lat lon api_key date).

End Network.

(** ** The submit handler: [show_forecast] *)

(** What the forecast label is set to: the fixed text, or the text built
    from the city, the date and the three values, each temperature with
    its value in degrees Fahrenheit. *)
Inductive label_text : Type :=
  | NoForecastAvailable
  | Forecast (city date : string) (max_temp min_temp precipitation : pyval).

(** The dialogs and the widget updates of the handler:
    [messagebox.showwarning], [messagebox.showerror],
    [forecast_label.config(text=...)] and [icon_label.config(image=...)],
    where [None] stands for [image=""]. *)
Inductive ui_action : Type :=
  | ShowWarning (title message : string)
  | ShowError (title message : string)
  | SetForecastLabel (text : label_text)
  | SetIconImage (image : option string).

(** A run of code that acts on the window: the actions done, in order,
    and how the run ends. An exception leaves the earlier actions done. *)
Record ui (A : Type) : Type := Run { shown : list ui_action; ended : outcome A }.
Arguments Run {A} shown ended.
Arguments shown {A} u.
Arguments ended {A} u.

#[global] Instance ui_ret : MRet ui := fun _ a => Run [] (Ret a).
#[global] Instance ui_bind : MBind ui := fun _ _ f m =>
  match ended m with
  | Ret a => Run (shown m ++ shown (f a)) (ended (f a))
  | Raise e => Run (shown m) (Raise e)
  end.

(** A computation that does not touch the window. *)
Definition lift {A : Type} (m : outcome A) : ui A := Run [] m.

Definition act (a : ui_action) : ui unit := Run [a] (Ret tt).

(** [c.isspace()] on a character below 256: tab, line feed, vertical
    tab, form feed, carriage return, the four separators, the blank,
    next line (133) and the no-break space (160). *)
Definition is_space (c : ascii) : bool :=
  let n := nat_of_ascii c in
  ((9 <=? n)%nat && (n <=? 13)%nat) || ((28 <=? n)%nat && (n <=? 32)%nat)
  || (n =? 133)%nat || (n =? 160)%nat.

Fixpoint lstrip (s : string) : string :=
  match s with
  | String c rest => if is_space c then lstrip rest else s
  | EmptyString => EmptyString
  end.

Fixpoint rstrip (s : string) : string :=
  match s with
  | String c rest =>
      match rstrip rest with
      | EmptyString => if is_space c then EmptyString else String c EmptyString
      | kept => String c kept
      end
  | EmptyString => EmptyString
  end.

(** [s.strip()] *)
Definition strip (s : string) : string := rstrip (lstrip s).

(** [v is None] *)
Definition is_None (v : pyval) : bool :=
  match v with
  | PNone => true
  | _ => false
  end.

(** [v in (None, 0)]: identity or equality with a member; a number is
    equal to [0] by value, so [0.0], [-0.0] and [False] are. *)
Definition in_None_0 (v : pyval) : bool :=
  match as_number v with
  | Some n => num_eqb n (NInt 0)
  | None => is_None v
  end.

(** [(v * 9 / 5) + 32], the argument of [round(..., 2)], which returns
    for every float: the value in degrees Fahrenheit of a number,
    [OverflowError] for an int whose quotient is past the float range,
    [TypeError] for anything else. *)
Definition fahrenheit (v : pyval) : outcome number :=
  match as_number v with
  | Some n =>
      product ← py_mul n (NInt 9);
      quotient ← py_truediv product 5;
      py_add (NFloat quotient) (NInt 32)
  | None => Raise TypeError
  end.

(** [get_weather_icon] on an arbitrary object: [precipitation == 0] is
    false for an object that is not a number, and [0 < precipitation]
    then raises [TypeError]. *)
Definition get_weather_icon_of (precipitation : pyval) : outcome string :=
  match as_number precipitation with
  | Some p => Ret (get_weather_icon p)
  | None => Raise TypeError
  end.

(** [if error:] on the result of a validator: [None] and the empty
    string are false. *)
Definition reported (error : option string) : option string :=
  match error with
  | Some message => if truthy (PStr message) then Some message else None
  | None => None
  end.

Definition API_KEY : string := "9db2391360652c6ff7cb0c5f6f974f9b".

Definition location_error (city country : string) : string :=
  "Could not find coordinates for '" +:+ city +:+ ", " +:+ country +:+ "'.".

Section Submit.

Variable http_json : request → outcome pyval.

(** The part of [show_forecast] after the merge. The text of the label
    is built, with both conversions to Fahrenheit, before the label is
    set; the icon is chosen after it. *)
Definition present_forecast (city date : string) (forecast : gmap string pyval)
    : ui unit :=
  if negb (truthy (PDict forecast))
     || (in_None_0 (dict_get forecast "max_temp")
         && in_None_0 (dict_get forecast "min_temp")
         && in_None_0 (dict_get forecast "precipitation"))
  then
    _ ← act (SetForecastLabel NoForecastAvailable);
    act (SetIconImage None)
  else
    max_temp ← lift (py_getitem "max_temp" (PDict forecast));
    _ ← lift (fahrenheit max_temp);
    min_temp ← lift (py_getitem "min_temp" (PDict forecast));
    _ ← lift (fahrenheit min_temp);
    precipitation ← lift (py_getitem "precipitation" (PDict forecast));
    _ ← act (SetForecastLabel (Forecast city date max_temp min_temp precipitation));
    weather_icon ← lift (py_getitem "precipitation" (PDict forecast)
                         ≫= get_weather_icon_of);
    act (SetIconImage (Some weather_icon)).

(** The part of [show_forecast] after the validation. *)
Definition fetch_and_present (city country date : string) : ui unit :=
  coordinates ← lift (get_coordinates http_json city country);
  let lat := fst coordinates in
  let lon := snd coordinates in
  if is_None lat || is_None lon
  then act (ShowError "Location Error" (location_error city country))
  else
    forecast1 ← lift (get_weather_open_meteo http_json lat lon date);
    forecast2 ← lift (get_weather_openweathermap http_json lat lon API_KEY date);
    forecast ← lift (calculate_forecast forecast1 forecast2);
    present_forecast city date forecast.

(** [show_forecast], with the texts of the three entry fields and
    [today] the value of [datetime.today().date()]. *)
Definition show_forecast (today : date) (city_entry country_entry date_entry : string)
    : ui unit :=
  let city := strip city_entry in
  let country := strip country_entry in
  let date := strip date_entry in
  if negb (truthy (PStr city) && truthy (PStr country) && truthy (PStr date))
  then act (ShowWarning "Input Error" "Provide all inputs: city, country, date.")
  else
    date_error ← lift (validate_date today date);
    match reported date_error with
    | Some message => act (ShowError "Date Error" message)
    | None =>
        match reported (validate_phone_country_code country) with
        | Some message => act (ShowError "Country Code Error" message)
        | None => fetch_and_present city country date
        end
    end.

End Submit.

(** ** Vocabulary of the statements *)

Definition forecast_fields : list string := ["max_temp"; "min_temp"; "precipitation"].



(** An object that is not an int too large for a float. *)
Definition in_float_range (v : pyval) : bool :=
  match as_number v with
  | Some (NInt z) => Z.abs z <? float_overflow
  | _ => true
  end.

Definition forecast_in_float_range (d : gmap string pyval) : bool :=
  forallb (fun k => in_float_range (dict_get d k)) forecast_fields.


(** A text made of white space only (the empty text included). *)
Fixpoint all_space (s : string) : bool :=
  match s with
  | String c rest => is_space c && all_space rest
  | EmptyString => true
  end.

(** The three entry fields pass the checks of the handler: none is blank,
    the date is in range today and the country code is in the table. *)
Definition inputs_accepted (today : date)
    (city_entry country_entry date_entry : string) : bool :=
  negb (all_space city_entry) && negb (all_space country_entry)
  && negb (all_space date_entry)
  && match validate_date today (strip date_entry) with
     | Ret None => true
     | _ => false
     end
  && match validate_phone_country_code (strip country_entry) with
     | None => true
     | Some _ => false
     end.

(** Every field of a forecast is [None] (or missing) or zero. *)
Definition all_None_0 (forecast : gmap string pyval) : bool :=
  forallb (fun k => in_None_0 (dict_get forecast k)) forecast_fields.

(** A decoded JSON object. *)
Definition is_dict (v : pyval) : bool :=
  match v with
  | PDict _ => true
  | _ => false
  end.

Definition is_number (v : pyval) : bool :=
  match as_number v with
  | Some _ => true
  | None => false
  end.

(** A pair of field values that [safe_average] takes without a
    [TypeError]: one of them is [None], or both are numbers. *)
Definition averageable (v1 v2 : pyval) : bool :=
  is_None v1 || is_None v2 || (is_number v1 && is_number v2).

(** A number whose value in degrees Fahrenheit is a float: a float, or an
    int [z] with [z * 9 / 5] within the float range. *)
Definition has_fahrenheit (v : pyval) : bool :=
  match as_number v with
  | Some (NInt z) => Z.abs (z * 9) <? float_overflow * 5
  | Some (NFloat _) => true
  | None => false
  end.

(** The run that shows "No forecast available." and clears the icon. *)
Definition no_forecast_shown : ui unit :=
  Run [SetForecastLabel NoForecastAvailable; SetIconImage None] (Ret tt).

(** The run that sets the label to the forecast text and then chooses the
    icon: when the precipitation is not a number it ends in [TypeError]
    with the label set and the icon untouched. *)
Definition forecast_shown (city date : string)
    (max_temp min_temp precipitation : pyval) : ui unit :=
  match as_number precipitation with
  | Some p =>
      Run [SetForecastLabel (Forecast city date max_temp min_temp precipitation);
           SetIconImage (Some (get_weather_icon p))] (Ret tt)
  | None =>
      Run [SetForecastLabel (Forecast city date max_temp min_temp precipitation)]
          (Raise TypeError)
  end.

(** The keys of [VALID_PHONE_COUNTRY_CODES]. *)
Definition country_codes : list string := ["1"; "91"; "44"; "86"; "7"].

(** A forecast is fully populated when none of its three fields is
    [None] or missing. *)
Definition fully_populated (d : gmap string pyval) : Prop :=
  ∀ k, k ∈ forecast_fields → dict_get d k ≠ PNone.

(** An empty response object, [{}], and the response
    [{"current": {"temp": 21.5}}]. *)
Definition empty_response : request → outcome pyval := fun _ => Ret (PDict ∅).

Definition temp_only_response : request → outcome pyval := fun _ =>
  Ret (PDict {[ "current" := PDict {[ "temp" := PFloat 21.5 ]} ]}).

(** A network for the examples: the geocoder finds one place, and the
    two forecast requests have the given outcomes. *)
Definition one_place : pyval :=
  PDict {[ "results" :=
    PList [PDict {[ "latitude" := PFloat 12.97; "longitude" := PFloat 77.59 ]}] ]}.

Definition network (open_meteo openweathermap : outcome pyval)
    : request → outcome pyval := fun r =>
  match r with
  | GeocodingSearch _ _ => Ret one_place
  | OpenMeteoForecast _ _ _ => open_meteo
  | OneCallTimemachine _ _ _ _ => openweathermap
  end.

(** The Open-Meteo response with one value in each daily array. *)
Definition daily_response (max_temp min_temp precipitation : pyval) : pyval :=
  PDict {[ "daily" := PDict {[ "temperature_2m_max" := PList [max_temp];
                               "temperature_2m_min" := PList [min_temp];
                               "precipitation_sum" := PList [precipitation] ]} ]}.

(** * Properties *)

(** ** Python's arithmetic *)

(** The model at the values where rounding and overflow show, as the
    interpreter computes them: [0.3 + 0.6] and its half are rounded, the
    int [2**53 + 1] is not a float, [1e308 + 1e308] is infinite, and the
    conversion and the division of ints overflow from
    [2**1024 - 2**970] on. *)
Example python_arithmetic_examples :
  mean2 (PFloat 0.3) (PFloat 0.6) = Ret (PFloat 0.44999999999999996)
  ∧ mean2 (PInt 9007199254740993) (PInt 9007199254740993)
    = Ret (PFloat 9007199254740992)
  ∧ mean2 (PFloat 1e308) (PFloat 1e308) = Ret (PFloat infinity)
  ∧ mean2 (PInt (10 ^ 400)) (PFloat 0.5) = Raise OverflowError
  ∧ mean2 (PInt (10 ^ 400)) (PInt (10 ^ 400)) = Raise OverflowError
  ∧ mean2 (PBool true) (PFloat 0.5) = Ret (PFloat 0.75)
  ∧ mean2 (PStr "a") (PStr "b") = Raise TypeError
  ∧ float_of_int (float_overflow - 1) = Ret 1.7976931348623157e308%float
  ∧ float_of_int float_overflow = Raise OverflowError
  ∧ int_truediv (2 * float_overflow - 1) 2 = Ret 1.7976931348623157e308%float
  ∧ int_truediv (2 * float_overflow) 2 = Raise OverflowError
  ∧ int_truediv 7 5 = Ret 1.4%float
  ∧ int_truediv (-3) 2 = Ret (-1.5)%float
  ∧ int_truediv (10 ^ 400) (10 ^ 399) = Ret 10%float.
Proof. vm_compute. repeat split. Qed.

(** Comparisons are by exact value: the int [2**53 + 1] is above the
    float [2.0**53], the two zeros are equal, and NaN is neither below,
    above nor equal to anything, yet true as a condition. *)
Example python_comparison_examples :
  num_eqb (NInt (2 ^ 53 + 1)) (NFloat 9007199254740992) = false
  ∧ num_ltb (NFloat 9007199254740992) (NInt (2 ^ 53 + 1)) = true
  ∧ num_eqb (NFloat neg_zero) (NInt 0) = true
  ∧ num_leb (NInt 0) (NFloat neg_zero) = true
  ∧ num_leb (NInt 0) (NFloat nan) = false
  ∧ num_eqb (NFloat nan) (NFloat nan) = false
  ∧ num_ltb (NFloat 0.1) (NFloat 0.2) = true
  ∧ num_ltb (NInt 10) (NFloat infinity) = true
  ∧ truthy (PFloat nan) = true
  ∧ truthy (PFloat neg_zero) = false.
Proof. vm_compute. repeat split. Qed.

Lemma float_of_int_raises (z : Z) (e : exn) :
  float_of_int z = Raise e → e = OverflowError.
Proof. unfold float_of_int. destruct (_ <? _); congruence. Qed.

Lemma int_truediv_raises (a b : Z) (e : exn) :
  int_truediv a b = Raise e → e = OverflowError.
Proof. unfold int_truediv. destruct (_ <? _); congruence. Qed.

Lemma float_of_int_in_range (z : Z) :
  Z.abs z < float_overflow → ∃ f, float_of_int z = Ret f.
Proof.
  intros Hz. unfold float_of_int.
  destruct (Z.ltb_spec (Z.abs z) float_overflow); [eauto | lia].
Qed.

Lemma float_of_int_literal (z : Z) :
  Z.abs z <= 32 → ∃ f, float_of_int z = Ret f.
Proof.
  intros Hz. apply float_of_int_in_range.
  assert (32 < float_overflow) by (by vm_compute). lia.
Qed.

Lemma py_add_raises (a b : number) (e : exn) :
  py_add a b = Raise e → e = OverflowError.
Proof.
  destruct a as [x | x], b as [y | y]; simpl; try discriminate.
  - destruct (float_of_int x) eqn:H; simpl; [discriminate |].
    intros [= <-]. by apply float_of_int_raises in H.
  - destruct (float_of_int y) eqn:H; simpl; [discriminate |].
    intros [= <-]. by apply float_of_int_raises in H.
Qed.

Lemma py_truediv_raises (a : number) (d : Z) (e : exn) :
  py_truediv a d = Raise e → e = OverflowError.
Proof.
  destruct a as [x | x]; simpl.
  - apply int_truediv_raises.
  - destruct (float_of_int d) eqn:H; simpl; [discriminate |].
    intros [= <-]. by apply float_of_int_raises in H.
Qed.

(** A float is divided by a literal without an exception. *)
Lemma py_truediv_float (x : float) (d : Z) :
  Z.abs d <= 32 → ∃ q, py_truediv (NFloat x) d = Ret q.
Proof.
  intros Hd. cbn [py_truediv]. destruct (float_of_int_literal d Hd) as [d' ->].
  cbn [mbind outcome_bind]. eauto.
Qed.

(** Addition of floats is commutative, NaN and the infinities
    included. *)
Lemma SFadd_comm (x y : spec_float) :
  SFadd prec emax x y = SFadd prec emax y x.
Proof.
  destruct x as [sx | sx | | sx mx ex], y as [sy | sy | | sy my ey];
    try reflexivity; try (by destruct sx, sy).
  unfold SFadd. by rewrite (Z.min_comm ey ex), Z.add_comm.
Qed.

Lemma float_add_comm (x y : float) : PrimFloat.add x y = PrimFloat.add y x.
Proof. apply Prim2SF_inj. rewrite !add_spec. apply SFadd_comm. Qed.

Lemma py_add_comm (a b : number) : py_add a b = py_add b a.
Proof.
  destruct a as [x | x], b as [y | y]; simpl.
  - by rewrite Z.add_comm.
  - destruct (float_of_int x); simpl; [by rewrite float_add_comm | done].
  - destruct (float_of_int y); simpl; [by rewrite float_add_comm | done].
  - by rewrite float_add_comm.
Qed.

(** ** The merger *)

Lemma make_forecast_lookup (a b c : pyval) :
  make_forecast a b c !! "max_temp" = Some a
  ∧ make_forecast a b c !! "min_temp" = Some b
  ∧ make_forecast a b c !! "precipitation" = Some c.
Proof. unfold make_forecast. by simplify_map_eq. Qed.

Lemma make_forecast_get (a b c : pyval) :
  dict_get (make_forecast a b c) "max_temp" = a
  ∧ dict_get (make_forecast a b c) "min_temp" = b
  ∧ dict_get (make_forecast a b c) "precipitation" = c.
Proof.
  unfold dict_get. destruct (make_forecast_lookup a b c) as (-> & -> & ->). done.
Qed.

Lemma make_forecast_dom (a b c : pyval) :
  dom (make_forecast a b c) = list_to_set forecast_fields.
Proof. unfold make_forecast, forecast_fields. rewrite !dom_insert_L. set_solver. Qed.

Lemma calculate_forecast_make (a1 b1 c1 a2 b2 c2 : pyval) :
  calculate_forecast (Some (make_forecast a1 b1 c1)) (Some (make_forecast a2 b2 c2))
  = (max_temp ← safe_average a1 a2;
     min_temp ← safe_average b1 b2;
     precipitation ← safe_average c1 c2;
     Ret (make_forecast max_temp min_temp precipitation)).
Proof.
  unfold calculate_forecast.
  destruct (make_forecast_get a1 b1 c1) as (-> & -> & ->).
  destruct (make_forecast_get a2 b2 c2) as (-> & -> & ->). done.
Qed.

(** [(value1 + value2) / 2] on two numbers: the exceptions it can raise,
    and when it raises none. *)
Lemma mean2_numbers (v1 v2 : pyval) (a b : number) :
  as_number v1 = Some a → as_number v2 = Some b →
  (∀ e, mean2 v1 v2 = Raise e → e = OverflowError)
  ∧ (∀ r, mean2 v1 v2 = Ret r →
       ∃ total half, py_add a b = Ret total ∧ py_truediv total 2 = Ret half
                     ∧ r = PFloat half)
  ∧ (in_float_range v1 = true → in_float_range v2 = true →
     ∃ r, mean2 v1 v2 = Ret r).
Proof.
  intros Ha Hb. unfold mean2, in_float_range. rewrite Ha, Hb.
  split; [| split].
  - intros e. destruct (py_add a b) as [total | e1] eqn:Hadd; simpl.
    + destruct (py_truediv total 2) as [half | e2] eqn:Hdiv; simpl;
        [discriminate |].
      intros [= <-]. by apply py_truediv_raises in Hdiv.
    + intros [= <-]. by apply py_add_raises in Hadd.
  - intros r. destruct (py_add a b) as [total | e1]; simpl; [| discriminate].
    destruct (py_truediv total 2) as [half | e2] eqn:Hdiv; simpl;
      [| discriminate].
    intros [= <-]. by exists total, half.
  - destruct a as [x | x], b as [y | y]; rewrite ?Z.ltb_lt; intros Hx Hy;
      cbn [py_add].
    + cbn [mbind outcome_bind py_truediv]. unfold int_truediv.
      destruct (Z.ltb_spec (Z.abs (x + y)) (float_overflow * Z.abs 2));
        [cbn [mbind outcome_bind]; eauto | lia].
    + destruct (float_of_int_in_range x Hx) as [x' ->].
      cbn [mbind outcome_bind].
      destruct (py_truediv_float (PrimFloat.add x' y) 2) as [q ->]; [lia |].
      cbn [mbind outcome_bind]. eauto.
    + destruct (float_of_int_in_range y Hy) as [y' ->].
      cbn [mbind outcome_bind].
      destruct (py_truediv_float (PrimFloat.add x y') 2) as [q ->]; [lia |].
      cbn [mbind outcome_bind]. eauto.
    + cbn [mbind outcome_bind].
      destruct (py_truediv_float (PrimFloat.add x y) 2) as [q ->]; [lia |].
      cbn [mbind outcome_bind]. eauto.
Qed.



Lemma mean2_comm (v1 v2 : pyval) : mean2 v1 v2 = mean2 v2 v1.
Proof.
  unfold mean2.
  destruct (as_number v1) as [a |], (as_number v2) as [b |]; try done.
  by rewrite (py_add_comm a b).
Qed.

Lemma safe_average_comm (v1 v2 : pyval) : safe_average v1 v2 = safe_average v2 v1.
Proof. destruct v1, v2; simpl; try done; apply mean2_comm. Qed.


Lemma forecast_field_cases (k : string) :
  k ∈ forecast_fields → k = "max_temp" ∨ k = "min_temp" ∨ k = "precipitation".
Proof.
  unfold forecast_fields. intros Hk.
  apply elem_of_cons in Hk as [-> | Hk]; [tauto |].
  apply elem_of_cons in Hk as [-> | Hk]; [tauto |].
  apply elem_of_cons in Hk as [-> | Hk]; [tauto |].
  by apply elem_of_nil in Hk.
Qed.

(** Each field of the merged forecast is what [safe_average] returns on
    the two values of that field. *)
Lemma calculate_forecast_fields (d1 d2 r : gmap string pyval) (k : string) :
  calculate_forecast (Some d1) (Some d2) = Ret r →
  k ∈ forecast_fields →
  ∃ v, safe_average (dict_get d1 k) (dict_get d2 k) = Ret v ∧ r !! k = Some v.
Proof.
  unfold calculate_forecast.
  destruct (safe_average (dict_get d1 "max_temp") _) as [mx | e] eqn:Hx;
    [| intros H; discriminate H].
  destruct (safe_average (dict_get d1 "min_temp") _) as [mn | e] eqn:Hn;
    [| intros H; discriminate H].
  destruct (safe_average (dict_get d1 "precipitation") _) as [pr | e] eqn:Hp;
    [| intros H; discriminate H].
  intros H Hk. injection H as <-.
  destruct (make_forecast_lookup mx mn pr) as (Lx & Ln & Lp).
  destruct (forecast_field_cases k Hk) as [-> | [-> | ->]]; eauto.
Qed.

Lemma calculate_forecast_dom (d1 d2 r : gmap string pyval) :
  calculate_forecast (Some d1) (Some d2) = Ret r →
  dom r = list_to_set forecast_fields.
Proof.
  unfold calculate_forecast.
  destruct (safe_average (dict_get d1 "max_temp") _) as [mx | e];
    [| intros H; discriminate H].
  destruct (safe_average (dict_get d1 "min_temp") _) as [mn | e];
    [| intros H; discriminate H].
  destruct (safe_average (dict_get d1 "precipitation") _) as [pr | e];
    [| intros H; discriminate H].
  intros H. injection H as <-. apply make_forecast_dom.
Qed.

(** An exception of the merger is the exception of one of the three
    averages. *)
Lemma calculate_forecast_raises (d1 d2 : gmap string pyval) (e : exn) :
  calculate_forecast (Some d1) (Some d2) = Raise e →
  ∃ k, k ∈ forecast_fields
       ∧ safe_average (dict_get d1 k) (dict_get d2 k) = Raise e.
Proof.
  unfold calculate_forecast, forecast_fields.
  destruct (safe_average (dict_get d1 "max_temp") _) as [mx | e1] eqn:Hx;
    [| intros [= <-]; exists "max_temp"; split; [set_solver | done]].
  destruct (safe_average (dict_get d1 "min_temp") _) as [mn | e2] eqn:Hn;
    [| intros [= <-]; exists "min_temp"; split; [set_solver | done]].
  destruct (safe_average (dict_get d1 "precipitation") _) as [pr | e3] eqn:Hp;
    [| intros [= <-]; exists "precipitation"; split; [set_solver | done]].
  intros H. discriminate H.
Qed.

Lemma calculate_forecast_returns (d1 d2 : gmap string pyval) :
  (∀ k, k ∈ forecast_fields →
        ∃ v, safe_average (dict_get d1 k) (dict_get d2 k) = Ret v) →
  ∃ r, calculate_forecast (Some d1) (Some d2) = Ret r.
Proof.
  intros H. unfold calculate_forecast.
  destruct (H "max_temp") as [mx ->]; [unfold forecast_fields; set_solver |].
  destruct (H "min_temp") as [mn ->]; [unfold forecast_fields; set_solver |].
  destruct (H "precipitation") as [pr ->]; [unfold forecast_fields; set_solver |].
  cbn [mbind outcome_bind]. eauto.
Qed.

Lemma forallb_forecast_fields (f : string → bool) :
  forallb f forecast_fields = true → ∀ k, k ∈ forecast_fields → f k = true.
Proof.
  unfold forecast_fields. cbn [forallb]. rewrite !andb_true_iff.
  intros (Hx & Hn & Hp & _) k Hk.
  destruct (forecast_field_cases k Hk) as [-> | [-> | ->]]; done.
Qed.

Lemma forallb_forecast_fields_intro (f : string → bool) :
  (∀ k, k ∈ forecast_fields → f k = true) → forallb f forecast_fields = true.
Proof.
  intros H. unfold forecast_fields in *. cbn [forallb].
  rewrite !H by set_solver. done.
Qed.



(** Evaluates the averages of closed values in the goal. *)
Ltac eval_safe_average :=
  repeat match goal with
         | |- context [safe_average ?a ?b] =>
             let r := eval vm_compute in (safe_average a b) in
             replace (safe_average a b) with r by (vm_compute; reflexivity)
         end;
  cbn [mbind outcome_bind].

(** The two examples of the specification, as the code computes them:
    [merge({10,5,0}, {20,7,4}) = {15.0,6.0,2.0}] and
    [merge({10,None,0}, {20,7,4}) = {15.0,7,2.0}]; the averaged fields are
    floats, equal to the ints of the specification. *)
Example calculate_forecast_mean_example :
  calculate_forecast (Some (make_forecast (num 10) (num 5) (num 0)))
                     (Some (make_forecast (num 20) (num 7) (num 4)))
  = Ret (make_forecast (PFloat 15) (PFloat 6) (PFloat 2))
  ∧ num_eqb (NFloat 15) (NInt 15) = true
  ∧ num_eqb (NFloat 6) (NInt 6) = true
  ∧ num_eqb (NFloat 2) (NInt 2) = true.
Proof.
  rewrite calculate_forecast_make. eval_safe_average.
  split; [reflexivity | by vm_compute].
Qed.

Example calculate_forecast_fallback_example :
  calculate_forecast (Some (make_forecast (num 10) PNone (num 0)))
                     (Some (make_forecast (num 20) (num 7) (num 4)))
  = Ret (make_forecast (PFloat 15) (num 7) (PFloat 2)).
Proof. rewrite calculate_forecast_make. eval_safe_average. reflexivity. Qed.

(** Two sources that agree on these values: the merged forecast has the
    same values, and a day without precipitation gets the clear icon. *)
Example calculate_forecast_agreeing_sources :
  calculate_forecast (Some (make_forecast (PFloat 30) (PFloat 20.5) (PFloat 0)))
                     (Some (make_forecast (PFloat 30) (PFloat 20.5) (PFloat 0)))
  = Ret (make_forecast (PFloat 30) (PFloat 20.5) (PFloat 0))
  ∧ get_weather_icon (NFloat 0) = "sun.png".
Proof.
  rewrite calculate_forecast_make. eval_safe_average.
  split; [reflexivity | by vm_compute].
Qed.





(** C8. [calculate_forecast] is commutative on all inputs: absent or
    present forecasts with any keys and any values, including the inputs
    on which it raises. *)
Theorem calculate_forecast_comm (f1 f2 : option (gmap string pyval)) :
  calculate_forecast f1 f2 = calculate_forecast f2 f1.
Proof.
  destruct f1 as [d1|], f2 as [d2|]; try reflexivity.
  unfold calculate_forecast.
  rewrite (safe_average_comm (dict_get d1 "max_temp")).
  rewrite (safe_average_comm (dict_get d1 "min_temp")).
  rewrite (safe_average_comm (dict_get d1 "precipitation")).
  reflexivity.
Qed.

(** ** The icon selector *)

Lemma value_compare_swap (a b : value) :
  value_compare b a = CompOpp <$> value_compare a b.
Proof.
  destruct a as [m1 e1 | s1 |], b as [m2 e2 | s2 |]; simpl; try done.
  - by rewrite (Z.min_comm e2 e1), Z.compare_antisym.
  - by destruct s2.
  - by destruct s1.
  - by destruct s1, s2.
Qed.

Lemma num_compare_swap (a b : number) :
  num_compare b a = CompOpp <$> num_compare a b.
Proof. apply value_compare_swap. Qed.

(** How a number compares with the integers: not at all (NaN), always the
    same way (an infinity), or as a fraction [M / T] does. *)
Lemma num_compare_int (p : number) :
  (∀ z, num_compare p (NInt z) = None)
  ∨ (∃ c, (c = Lt ∨ c = Gt) ∧ ∀ z, num_compare p (NInt z) = Some c)
  ∨ (∃ M T, 0 < T ∧ ∀ z, num_compare p (NInt z) = Some (M ?= z * T)).
Proof.
  unfold num_compare.
  destruct (value_of p) as [m e | s |] eqn:Hp.
  - right. right. exists (m * 2 ^ (e - Z.min e 0)), (2 ^ (0 - Z.min e 0)).
    split; [apply Z.pow_pos_nonneg; lia | done].
  - right. left. exists (if s then Lt else Gt).
    split; [destruct s; tauto | done].
  - by left.
Qed.

(** C3. For every precipitation amount [p], a number with [0 <= p], the
    selector picks the file by ordered thresholds: [sun.png] exactly at
    [0], [cloudy.png] exactly on (0, 2], [rain.png] exactly on (2, 10]
    and [snow.png] exactly above [10]; the boundaries 2 and 10 fall in
    the lower category. *)
Theorem get_weather_icon_thresholds (p : number) :
  num_leb (NInt 0) p = true →
  (get_weather_icon p = "sun.png" ↔ num_eqb p (NInt 0) = true)
  ∧ (get_weather_icon p = "cloudy.png"
     ↔ num_ltb (NInt 0) p = true ∧ num_leb p (NInt 2) = true)
  ∧ (get_weather_icon p = "rain.png"
     ↔ num_ltb (NInt 2) p = true ∧ num_leb p (NInt 10) = true)
  ∧ (get_weather_icon p = "snow.png" ↔ num_ltb (NInt 10) p = true).
Proof.
  unfold get_weather_icon, num_eqb, num_ltb, num_leb.
  rewrite !(num_compare_swap p (NInt _)).
  destruct (num_compare_int p) as [Hnan | [(c & Hc & Hinf) | (M & T & HT & Hfin)]].
  - rewrite !Hnan. discriminate.
  - rewrite !Hinf. destruct Hc as [-> | ->]; simpl; [discriminate |].
    intros _. repeat split; intros; intuition discriminate.
  - rewrite !Hfin.
    destruct (Z.compare_spec M (0 * T)), (Z.compare_spec M (2 * T)),
      (Z.compare_spec M (10 * T)); simpl; try lia; try discriminate.
    all: intros _; repeat split; intros; intuition discriminate.
Qed.

Lemma get_weather_icon_thresholds_witness :
  get_weather_icon (NFloat 10.5) = "snow.png"
  ∧ (get_weather_icon (NInt 10) = "rain.png" ↔
       num_ltb (NInt 2) (NInt 10) = true ∧ num_leb (NInt 10) (NInt 10) = true).
Proof.
  split.
  - apply (get_weather_icon_thresholds (NFloat 10.5)); by vm_compute.
  - apply (get_weather_icon_thresholds (NInt 10)). by vm_compute.
Defined.

(** The values the specification lists: 0, 1.5, 7 and 15, and the two
    boundaries, as ints and as floats. An infinite amount is above every
    threshold, and NaN, which is not an amount, ends in the last
    branch. *)
Example get_weather_icon_examples :
  get_weather_icon (NInt 0) = "sun.png"
  ∧ get_weather_icon (NFloat 0) = "sun.png"
  ∧ get_weather_icon (NFloat neg_zero) = "sun.png"
  ∧ get_weather_icon (NFloat 1.5) = "cloudy.png"
  ∧ get_weather_icon (NInt 2) = "cloudy.png"
  ∧ get_weather_icon (NFloat 2) = "cloudy.png"
  ∧ get_weather_icon (NFloat 2.0000000000000004) = "rain.png"
  ∧ get_weather_icon (NInt 7) = "rain.png"
  ∧ get_weather_icon (NFloat 10) = "rain.png"
  ∧ get_weather_icon (NFloat 10.000000000000002) = "snow.png"
  ∧ get_weather_icon (NInt 15) = "snow.png"
  ∧ get_weather_icon (NFloat infinity) = "snow.png"
  ∧ get_weather_icon (NFloat nan) = "snow.png".
Proof. vm_compute. repeat split. Qed.
(** ** The validators *)

Lemma VALID_PHONE_COUNTRY_CODES_dom :
  dom VALID_PHONE_COUNTRY_CODES = list_to_set country_codes.
Proof.
  unfold VALID_PHONE_COUNTRY_CODES, country_codes.
  rewrite !dom_insert_L. set_solver.
Qed.

(** C7. [validate_phone_country_code] returns no error exactly on the five
    codes of the table, and the unknown-code message on every other
    string. *)
Theorem validate_phone_country_code_spec (code : string) :
  (validate_phone_country_code code = None ↔ code ∈ country_codes)
  ∧ validate_phone_country_code code
    = (if decide (code ∈ country_codes) then None else Some (UnknownCode code)).
Proof.
  assert (Hin : code ∈ country_codes ↔ VALID_PHONE_COUNTRY_CODES !! code ≠ None).
  { rewrite <- (elem_of_list_to_set (C := gset string)).
    rewrite <- VALID_PHONE_COUNTRY_CODES_dom, elem_of_dom.
    by rewrite not_eq_None_Some. }
  unfold validate_phone_country_code.
  case_bool_decide as Hnone; case_decide as Hmem; try tauto.
  all: split; [split; [done | tauto] | done].
Qed.

(** The parser follows [strptime]: months and days need no leading zero
    and a day may be written with a leading blank; a day outside the month,
    the year [0000] and text after the day are rejected. *)
Example strptime_date_examples :
  strptime_date "2024-03-01" = Ret (mkdate 2024 3 1)
  ∧ strptime_date "2024-3-1" = Ret (mkdate 2024 3 1)
  ∧ strptime_date "2024-03- 1" = Ret (mkdate 2024 3 1)
  ∧ strptime_date "2024-02-29" = Ret (mkdate 2024 2 29)
  ∧ strptime_date "2023-02-29" = Raise ValueError
  ∧ strptime_date "0000-01-01" = Raise ValueError
  ∧ strptime_date "2024-12-311" = Raise ValueError
  ∧ strptime_date "01/03/2024" = Raise ValueError.
Proof. vm_compute. repeat split. Qed.

(** On an ordinary day the four outcomes, with the limit included in the
    allowed range. *)
Example validate_date_examples :
  validate_date (mkdate 2024 6 15) "2024-06-14" = Ret (Some PastDate)
  ∧ validate_date (mkdate 2024 6 15) "2024-06-15" = Ret None
  ∧ validate_date (mkdate 2024 6 15) "2025-06-15" = Ret None
  ∧ validate_date (mkdate 2024 6 15) "2025-06-16"
    = Ret (Some (TooFarFuture (mkdate 2025 6 15)))
  ∧ validate_date (mkdate 2024 6 15) "June 15" = Ret (Some InvalidFormat)
  ∧ TooFarFuture (mkdate 2025 6 15)
    = "The date is too far in the future. Maximum allowed: 2025-06-15.".
Proof. vm_compute. repeat split. Qed.

(** Parsing fails with [ValueError] only: no match, text left over, or a
    day, month or year outside the calendar. *)
Lemma strptime_date_raises (text : string) (e : exn) :
  strptime_date text = Raise e → e = ValueError.
Proof.
  unfold strptime_date, make_date.
  destruct (re_Ymd text) as [| [[[y m] d] rest] ?]; [congruence |].
  case_bool_decide; [| congruence].
  destruct (valid_ymd y m d); congruence.
Qed.

(** A date that parses is a date of the calendar. *)
Lemma strptime_date_valid (text : string) (d : date) :
  strptime_date text = Ret d → valid_date d = true.
Proof.
  unfold strptime_date, make_date.
  destruct (re_Ymd text) as [| [[[y m] dd] rest] ?]; [congruence |].
  case_bool_decide; [| congruence].
  destruct (valid_ymd y m dd) eqn:Hv; [| congruence].
  intros [= <-]. exact Hv.
Qed.

(** The year after a leap year is not one, so the 29th of February has no
    counterpart one year later. *)
Lemma replace_year_leap_day (today : date) :
  valid_date today = true → month today = 2 → day today = 29 →
  date_replace_year today (year today + 1) = Raise ValueError.
Proof.
  destruct today as [y m d]. unfold valid_date, date_replace_year, make_date,
    valid_ymd, days_in_month, is_leap. simpl. intros Hv -> ->. simpl in *.
  destruct (Z.eqb_spec (y mod 4) 0) as [H4 | H4]; simpl in Hv.
  - destruct (Z.eqb_spec ((y + 1) mod 4) 0) as [H4' | H4'];
      [exfalso; clear Hv; Z.div_mod_to_equations; lia |].
    simpl. by rewrite !andb_false_r.
  - by rewrite !andb_false_r in Hv.
Qed.

Lemma date_messages_distinct (max_forecast_date : date) :
  PastDate ≠ InvalidFormat ∧ TooFarFuture max_forecast_date ≠ InvalidFormat.
Proof. split; discriminate. Qed.

(** One year after a day of the calendar is later than that day, so a date
    beyond the limit is not in the past. *)
Lemma past_limit_not_past (today max_forecast_date d : date) :
  date_replace_year today (year today + 1) = Ret max_forecast_date →
  date_ltb max_forecast_date d = true → date_ltb d today = false.
Proof.
  unfold date_replace_year, make_date.
  destruct (valid_ymd _ _ _); [| congruence]. intros [= <-].
  unfold date_ltb. simpl.
  rewrite !orb_true_iff, !andb_true_iff, !orb_true_iff, !andb_true_iff.
  rewrite !orb_false_iff, !andb_false_iff, !orb_false_iff, !andb_false_iff.
  rewrite !Z.ltb_lt, !Z.eqb_eq, !Z.ltb_ge, !Z.eqb_neq. lia.
Qed.

(** What [validate_date] does on every day that has a counterpart one
    year later (every day but the 29th of February, before the year
    9999): the four outcomes of the specification. *)
Lemma validate_date_ordinary_day (today max_forecast_date : date) (text : string) :
  date_replace_year today (year today + 1) = Ret max_forecast_date →
  (validate_date today text = Ret (Some InvalidFormat)
     ↔ strptime_date text = Raise ValueError)
  ∧ ∀ d, strptime_date text = Ret d →
      (date_ltb d today = true → validate_date today text = Ret (Some PastDate))
      ∧ (date_ltb max_forecast_date d = true →
           validate_date today text = Ret (Some (TooFarFuture max_forecast_date)))
      ∧ (date_ltb d today = false → date_ltb max_forecast_date d = false →
           validate_date today text = Ret None).
Proof.
  intros Hmax.
  destruct (date_messages_distinct max_forecast_date) as [Hp Hf].
  unfold validate_date, validate_date_try.
  destruct (strptime_date text) as [d | e] eqn:Hparse; simpl.
  - rewrite Hmax. simpl. split.
    + split; [| congruence].
      destruct (date_ltb d today); [congruence |].
      destruct (date_ltb max_forecast_date d); congruence.
    + intros d' [= <-]. repeat split.
      * by intros ->.
      * intros Hlt. by rewrite (past_limit_not_past _ _ _ Hmax Hlt), Hlt.
      * by intros -> ->.
  - rewrite (strptime_date_raises _ _ Hparse). split; [done | congruence].
Qed.

Lemma validate_date_ordinary_day_witness :
  validate_date (mkdate 2024 2 28) "2025-03-01"
  = Ret (Some (TooFarFuture (mkdate 2025 2 28))).
Proof.
  destruct (validate_date_ordinary_day (mkdate 2024 2 28) (mkdate 2025 2 28)
              "2025-03-01" eq_refl) as [_ H].
  destruct (H (mkdate 2025 3 1) eq_refl) as (_ & Hfar & _).
  apply Hfar. reflexivity.
Defined.

(** C4 at the input where the code departs from it: on the 29th of
    February 2024 the text [2024-03-01] parses, lies between today and one
    year ahead, and is still answered with the format message. *)
Theorem validate_date_leap_day_rejects_valid_date :
  strptime_date "2024-03-01" = Ret (mkdate 2024 3 1)
  ∧ date_ltb (mkdate 2024 3 1) (mkdate 2024 2 29) = false
  ∧ validate_date (mkdate 2024 2 29) "2024-03-01" = Ret (Some InvalidFormat).
Proof. vm_compute. repeat split. Qed.

(** C10. When today is the 29th of February, [validate_date] answers every
    text with the format message: [today.replace(year=today.year + 1)]
    raises [ValueError], which the [except] clause meant for parse errors
    catches. *)
Theorem validate_date_leap_day (today : date) (text : string) :
  valid_date today = true → month today = 2 → day today = 29 →
  validate_date today text = Ret (Some InvalidFormat).
Proof.
  intros Hv Hm Hd. unfold validate_date, validate_date_try.
  destruct (strptime_date text) as [d | e] eqn:Hparse; simpl.
  - by rewrite (replace_year_leap_day today Hv Hm Hd).
  - by rewrite (strptime_date_raises _ _ Hparse).
Qed.

Lemma validate_date_leap_day_witness :
  validate_date (mkdate 2024 2 29) "2024-06-15" = Ret (Some InvalidFormat).
Proof.
  apply (validate_date_leap_day (mkdate 2024 2 29) "2024-06-15");
    reflexivity.
Defined.
(** ** The geocoder *)

(** The geocoder answers [(None, None)] when the decoded response is an
    object without a [results] member, or with an empty one. *)
Lemma get_coordinates_no_results (http_json : request → outcome pyval)
    (city country : string) (data : gmap string pyval) :
  http_json (GeocodingSearch city country) = Ret (PDict data) →
  truthy (dict_get data "results") = false →
  get_coordinates http_json city country = Ret (PNone, PNone).
Proof.
  intros Hresp Hfalsy. unfold get_coordinates. rewrite Hresp. simpl.
  unfold dict_get in Hfalsy.
  destruct (data !! "results") as [results |] eqn:Hres; simpl in *.
  - by rewrite Hfalsy.
  - done.
Qed.

(** The first result of a response with results gives the coordinates. *)
Example get_coordinates_first_result :
  get_coordinates
    (fun _ => Ret (PDict {[ "results" :=
       PList [PDict {[ "latitude" := PFloat 12.97;
                       "longitude" := PFloat 77.59 ]}] ]}))
    "Bengaluru" "91"
  = Ret (PFloat 12.97, PFloat 77.59).
Proof. reflexivity. Qed.

(** C6 at the input where the code departs from it: there is no handler
    around the request in [get_coordinates], so a failed request reaches
    the caller as the exception; absent coordinates are not returned. *)
Theorem get_coordinates_request_failure (http_json : request → outcome pyval)
    (city country : string) :
  http_json (GeocodingSearch city country) = Raise RequestException →
  get_coordinates http_json city country = Raise RequestException
  ∧ get_coordinates http_json city country ≠ Ret (PNone, PNone).
Proof.
  intros Hresp. unfold get_coordinates. rewrite Hresp. simpl. done.
Qed.

Lemma get_coordinates_request_failure_witness :
  get_coordinates (fun _ => Raise RequestException) "Paris" "44"
  = Raise RequestException.
Proof.
  apply (get_coordinates_request_failure
           (fun _ => Raise RequestException) "Paris" "44" eq_refl).
Defined.

(** ** The forecast clients *)

Lemma lookup_Some_truthy (d : gmap string pyval) (k : string) (v : pyval) :
  d !! k = Some v → truthy (PDict d) = true.
Proof.
  intros Hk. simpl. rewrite bool_decide_eq_false_2; [done |].
  intros ->. by rewrite lookup_empty in Hk.
Qed.

Lemma py_get_raises (v : pyval) (k : string) (dflt : pyval) (e : exn) :
  py_get v k dflt = Raise e → e = AttributeError.
Proof. destruct v; simpl; congruence. Qed.

(** Source B returns [None] only through its exception handler. *)
Lemma get_weather_openweathermap_try_not_None
    (http_json : request → outcome pyval) (lat lon : pyval)
    (api_key date : string) :
  get_weather_openweathermap_try http_json lat lon api_key date ≠ Ret None.
Proof.
  unfold get_weather_openweathermap_try.
  destruct (http_json _) as [data | e]; simpl; [| done].
  destruct (py_get data _ _) as [current_data | e]; simpl; [| done].
  destruct (py_get current_data "temp" _) as [temp | e]; simpl; [| done].
  destruct (py_get current_data "rain" _) as [rain | e]; simpl; [| done].
  destruct (py_get rain _ _) as [precipitation | e]; simpl; done.
Qed.

(** Source B returns a forecast or raises whenever the request returns. *)
Lemma get_weather_openweathermap_not_None
    (http_json : request → outcome pyval) (lat lon : pyval)
    (api_key date : string) (data : pyval) :
  http_json (OneCallTimemachine lat lon api_key date) = Ret data →
  get_weather_openweathermap http_json lat lon api_key date ≠ Ret None.
Proof.
  intros Hresp Hnone.
  unfold get_weather_openweathermap, except_RequestException in Hnone.
  destruct (get_weather_openweathermap_try http_json lat lon api_key date)
    as [r | e] eqn:Htry.
  - injection Hnone as ->.
    by apply get_weather_openweathermap_try_not_None in Htry.
  - unfold get_weather_openweathermap_try in Htry.
    rewrite Hresp in Htry. simpl in Htry.
    destruct e; try discriminate Hnone.
    destruct (py_get data _ _) as [c | e1] eqn:E1; simpl in Htry;
      [| apply py_get_raises in E1; congruence].
    destruct (py_get c "temp" _) as [t | e2] eqn:E2; simpl in Htry;
      [| apply py_get_raises in E2; congruence].
    destruct (py_get c "rain" _) as [rn | e3] eqn:E3; simpl in Htry;
      [| apply py_get_raises in E3; congruence].
    destruct (py_get rn _ _) as [p | e4] eqn:E4; simpl in Htry;
      [done | apply py_get_raises in E4; congruence].
Qed.

(** C5 (as the code has it). Source A returns no forecast when the
    request fails and when the response object has no [daily] member or a
    false one ([null], an empty object), and the first entries of the
    three daily arrays when [daily] is an object that holds them, each a
    non-empty list. Source B returns no forecast exactly when the request
    fails: on every response object whose [current] member and, in it,
    [rain] member are objects where present, it returns a forecast with
    [current.temp] as both temperatures ([None] when it is missing) and
    [current.rain.1h] as precipitation ([0] when it is missing). *)
Theorem forecast_clients_outcomes (http_json : request → outcome pyval)
    (lat lon : pyval) (api_key date : string) :
  (http_json (OpenMeteoForecast lat lon date) = Raise RequestException →
     get_weather_open_meteo http_json lat lon date = Ret None)
  ∧ (∀ data,
       http_json (OpenMeteoForecast lat lon date) = Ret (PDict data) →
       truthy (dict_get data "daily") = false →
       get_weather_open_meteo http_json lat lon date = Ret None)
  ∧ (∀ data daily max_temp min_temp precipitation l1 l2 l3,
       http_json (OpenMeteoForecast lat lon date) = Ret (PDict data) →
       data !! "daily" = Some (PDict daily) →
       daily !! "temperature_2m_max" = Some (PList (max_temp :: l1)) →
       daily !! "temperature_2m_min" = Some (PList (min_temp :: l2)) →
       daily !! "precipitation_sum" = Some (PList (precipitation :: l3)) →
       get_weather_open_meteo http_json lat lon date
       = Ret (Some (make_forecast max_temp min_temp precipitation)))
  ∧ (get_weather_openweathermap http_json lat lon api_key date = Ret None
     ↔ http_json (OneCallTimemachine lat lon api_key date)
       = Raise RequestException)
  ∧ (∀ data current_data rain,
       http_json (OneCallTimemachine lat lon api_key date) = Ret (PDict data) →
       dict_get_default data "current" (PDict ∅) = PDict current_data →
       dict_get_default current_data "rain" (PDict ∅) = PDict rain →
       get_weather_openweathermap http_json lat lon api_key date
       = Ret (Some (make_forecast (dict_get current_data "temp")
                                  (dict_get current_data "temp")
                                  (dict_get_default rain "1h" (num 0))))).
Proof.
  split; [| split; [| split; [| split; [split |]]]].
  - intros Hresp. unfold get_weather_open_meteo, get_weather_open_meteo_try.
    by rewrite Hresp.
  - intros data Hresp Hfalsy.
    unfold get_weather_open_meteo, get_weather_open_meteo_try.
    rewrite Hresp. simpl. unfold dict_get in Hfalsy.
    unfold dict_get_default. by rewrite Hfalsy.
  - intros data daily mx mn pr l1 l2 l3 Hresp Hdaily Hmx Hmn Hpr.
    unfold get_weather_open_meteo, get_weather_open_meteo_try.
    rewrite Hresp. simpl. unfold dict_get_default. rewrite Hdaily.
    cbn [default from_option id]. rewrite (lookup_Some_truthy _ _ _ Hmx).
    simpl. by rewrite Hmx, Hmn, Hpr.
  - intros Hnone.
    destruct (http_json (OneCallTimemachine lat lon api_key date))
      as [data | e] eqn:Hresp.
    + by apply get_weather_openweathermap_not_None in Hresp.
    + revert Hnone.
      unfold get_weather_openweathermap, get_weather_openweathermap_try.
      rewrite Hresp. by destruct e.
  - intros Hresp.
    unfold get_weather_openweathermap, get_weather_openweathermap_try.
    by rewrite Hresp.
  - intros data current_data rain Hresp Hcur Hrain.
    unfold get_weather_openweathermap, get_weather_openweathermap_try.
    rewrite Hresp. simpl. rewrite Hcur. simpl. by rewrite Hrain.
Qed.

Lemma forecast_clients_outcomes_witness :
  get_weather_open_meteo empty_response (num 0) (num 0) "2024-06-15" = Ret None
  ∧ get_weather_openweathermap empty_response (num 0) (num 0) "key" "2024-06-15"
    = Ret (Some (make_forecast PNone PNone (num 0))).
Proof.
  destruct (forecast_clients_outcomes empty_response (num 0) (num 0)
              "key" "2024-06-15") as (_ & HA & _ & _ & HB).
  split.
  - exact (HA ∅ eq_refl eq_refl).
  - exact (HB ∅ ∅ ∅ eq_refl eq_refl eq_refl).
Defined.

Lemma get_weather_openweathermap_empty_response :
  get_weather_openweathermap empty_response (num 0) (num 0) "key" "2024-06-15"
  = Ret (Some (make_forecast PNone PNone (num 0))).
Proof. reflexivity. Qed.

(** C5 as stated fails for source B: on the empty response object it
    returns a forecast, with both temperatures [None] and the
    precipitation filled in as [0]. *)
Lemma forecast_clients_counterexample :
  ¬ (∀ (http_json : request → outcome pyval) (lat lon : pyval)
       (api_key date : string),
       get_weather_openweathermap http_json lat lon api_key date = Ret None
       ∨ ∃ d, get_weather_openweathermap http_json lat lon api_key date
              = Ret (Some d)
              ∧ fully_populated d).
Proof.
  intros H.
  destruct (H empty_response (num 0) (num 0) "key" "2024-06-15")
    as [Hnone | (d & Hd & Hfull)].
  - rewrite get_weather_openweathermap_empty_response in Hnone.
    discriminate Hnone.
  - rewrite get_weather_openweathermap_empty_response in Hd.
    injection Hd as <-.
    apply (Hfull "max_temp"); [unfold forecast_fields; repeat constructor |].
    by destruct (make_forecast_get PNone PNone (num 0)) as (-> & _).
Qed.

(** C9. Whenever source B returns a forecast, its [max_temp] and
    [min_temp] are both the value of [current.temp] in the response
    ([None] when the response has no such member): the two fields are
    equal, and the temperature range of this source has no width. *)
Theorem get_weather_openweathermap_flat_range
    (http_json : request → outcome pyval) (lat lon : pyval)
    (api_key date : string) (d : gmap string pyval) :
  get_weather_openweathermap http_json lat lon api_key date = Ret (Some d) →
  ∃ data current_data,
    http_json (OneCallTimemachine lat lon api_key date) = Ret (PDict data)
    ∧ dict_get_default data "current" (PDict ∅) = PDict current_data
    ∧ d !! "max_temp" = Some (dict_get current_data "temp")
    ∧ d !! "min_temp" = Some (dict_get current_data "temp").
Proof.
  unfold get_weather_openweathermap, get_weather_openweathermap_try.
  destruct (http_json _) as [data | e]; simpl; [| by destruct e].
  destruct data as [| | | | | | data]; try discriminate. simpl.
  destruct (dict_get_default data "current" (PDict ∅))
    as [| | | | | | current_data] eqn:Hcur; try discriminate. simpl.
  destruct (py_get (dict_get_default current_data "rain" (PDict ∅)) _ _)
    as [precipitation | e]; simpl; [| by destruct e].
  intros [= <-]. exists data, current_data.
  destruct (make_forecast_lookup (dict_get current_data "temp")
              (dict_get current_data "temp") precipitation) as (Hx & Hn & _).
  unfold dict_get, dict_get_default in *. by rewrite Hx, Hn.
Qed.

Lemma get_weather_openweathermap_flat_range_witness :
  ∃ data current_data,
    temp_only_response (OneCallTimemachine (num 0) (num 0) "key" "2024-06-15")
    = Ret (PDict data)
    ∧ dict_get_default data "current" (PDict ∅) = PDict current_data
    ∧ make_forecast (PFloat 21.5) (PFloat 21.5) (num 0) !! "max_temp"
      = Some (dict_get current_data "temp")
    ∧ make_forecast (PFloat 21.5) (PFloat 21.5) (num 0) !! "min_temp"
      = Some (dict_get current_data "temp").
Proof.
  apply (get_weather_openweathermap_flat_range temp_only_response
           (num 0) (num 0) "key" "2024-06-15").
  reflexivity.
Defined.
(** * Further properties of the code *)

(** ** Dates: printing and parsing *)

Lemma digit_char_spec (z : Z) :
  in_range "0" "9" (digit_char z) = true ∧ digit_val (digit_char z) = z mod 10.
Proof.
  unfold digit_char.
  assert (H : 0 <= z mod 10 < 10) by (apply Z.mod_pos_bound; lia).
  assert (Hc : z mod 10 = 0 ∨ z mod 10 = 1 ∨ z mod 10 = 2 ∨ z mod 10 = 3
               ∨ z mod 10 = 4 ∨ z mod 10 = 5 ∨ z mod 10 = 6 ∨ z mod 10 = 7
               ∨ z mod 10 = 8 ∨ z mod 10 = 9) by lia.
  repeat (destruct Hc as [-> | Hc]; [by vm_compute |]).
  rewrite Hc. by vm_compute.
Qed.

Lemma then_single {A B C : Type} (f : A → B → C) (p : matcher A) (q : matcher B)
    (s s1 : string) (a : A) :
  p s = [(a, s1)] →
  then_ f p q s = map (fun '(b, s2) => (f a b, s2)) (q s1).
Proof. intros Hp. unfold then_. rewrite Hp. simpl. by rewrite app_nil_r. Qed.

Lemma re_Y_digits (c1 c2 c3 c4 : ascii) (rest : string) :
  in_range "0" "9" c1 = true → in_range "0" "9" c2 = true →
  in_range "0" "9" c3 = true → in_range "0" "9" c4 = true →
  re_Y (String c1 (String c2 (String c3 (String c4 rest))))
  = [(100 * two_digits c1 c2 + two_digits c3 c4, rest)].
Proof.
  intros H1 H2 H3 H4. unfold re_Y, then_, one. simpl.
  rewrite H1. simpl. rewrite H2. simpl. rewrite H3. simpl. rewrite H4. done.
Qed.

Lemma pad4_value (y : Z) :
  0 <= y <= 9999 →
  100 * two_digits (digit_char (y / 1000)) (digit_char (y / 100))
  + two_digits (digit_char (y / 10)) (digit_char y) = y.
Proof.
  intros Hy. unfold two_digits.
  rewrite !(proj2 (digit_char_spec _)).
  Z.div_mod_to_equations. lia.
Qed.

Lemma re_m_pad2 (m : Z) (rest : string) :
  1 <= m <= 12 →
  then_ (fun m _ => m) re_m re_dash (pad2 m +:+ "-" +:+ rest) = [(m, rest)].
Proof.
  intros Hm.
  assert (Hc : m = 1 ∨ m = 2 ∨ m = 3 ∨ m = 4 ∨ m = 5 ∨ m = 6 ∨ m = 7 ∨ m = 8
               ∨ m = 9 ∨ m = 10 ∨ m = 11 ∨ m = 12) by lia.
  repeat (destruct Hc as [-> | Hc]; [by vm_compute |]).
  subst m. by vm_compute.
Qed.

Lemma re_d_pad2 (d : Z) :
  1 <= d <= 31 → ∃ others, re_d (pad2 d) = (d, "") :: others.
Proof.
  intros Hd.
  assert (Hc : d = 1 ∨ d = 2 ∨ d = 3 ∨ d = 4 ∨ d = 5 ∨ d = 6 ∨ d = 7 ∨ d = 8
               ∨ d = 9 ∨ d = 10 ∨ d = 11 ∨ d = 12 ∨ d = 13 ∨ d = 14 ∨ d = 15
               ∨ d = 16 ∨ d = 17 ∨ d = 18 ∨ d = 19 ∨ d = 20 ∨ d = 21 ∨ d = 22
               ∨ d = 23 ∨ d = 24 ∨ d = 25 ∨ d = 26 ∨ d = 27 ∨ d = 28 ∨ d = 29
               ∨ d = 30 ∨ d = 31) by lia.
  repeat (destruct Hc as [-> | Hc]; [eexists; by vm_compute |]).
  subst d. eexists. by vm_compute.
Qed.

Lemma valid_ymd_bounds (y m d : Z) :
  valid_ymd y m d = true → 1 <= y <= 9999 ∧ 1 <= m <= 12 ∧ 1 <= d <= 31.
Proof.
  unfold valid_ymd, days_in_month. rewrite !andb_true_iff, !Z.leb_le.
  intros (((((? & ?) & ?) & ?) & ?) & Hd).
  repeat split; try lia.
  destruct (m =? 2); [destruct (is_leap y); lia |].
  destruct (_ || _); lia.
Qed.

Lemma isoformat_unfold (y m d : Z) :
  isoformat (mkdate y m d)
  = String (digit_char (y / 1000)) (String (digit_char (y / 100))
      (String (digit_char (y / 10)) (String (digit_char y)
         (String "-" (pad2 m +:+ "-" +:+ pad2 d))))).
Proof. reflexivity. Qed.

Lemma re_Ymd_isoformat (y m d : Z) :
  valid_ymd y m d = true →
  ∃ others, re_Ymd (isoformat (mkdate y m d)) = (y, m, d, "") :: others.
Proof.
  intros Hv. destruct (valid_ymd_bounds _ _ _ Hv) as (Hy & Hm & Hd).
  destruct (re_d_pad2 d Hd) as (others & Hday).
  rewrite isoformat_unfold. unfold re_Ymd.
  assert (HY : then_ (fun (y : Z) (_ : ascii) => y) re_Y re_dash
                 (String (digit_char (y / 1000)) (String (digit_char (y / 100))
                    (String (digit_char (y / 10)) (String (digit_char y)
                       (String "-" (pad2 m +:+ "-" +:+ pad2 d))))))
               = [(y, pad2 m +:+ "-" +:+ pad2 d)]).
  { rewrite (then_single _ _ _ _ _ _
               (re_Y_digits _ _ _ _ _
                  (proj1 (digit_char_spec _)) (proj1 (digit_char_spec _))
                  (proj1 (digit_char_spec _)) (proj1 (digit_char_spec _)))).
    rewrite pad4_value by lia. done. }
  rewrite (then_single _ _ _ _ _ _
             (eq_trans (then_single _ _ _ _ _ _ HY)
                       (f_equal _ (re_m_pad2 m (pad2 d) Hm)))).
  rewrite Hday. simpl. eauto.
Qed.

Lemma strptime_date_make_date (y m d : Z) :
  valid_ymd y m d = true →
  strptime_date (isoformat (mkdate y m d)) = Ret (mkdate y m d).
Proof.
  intros Hv. unfold strptime_date.
  destruct (re_Ymd_isoformat y m d Hv) as (others & ->).
  simpl. unfold make_date. by rewrite Hv.
Qed.

(** X1. Printing a date of the calendar with [isoformat] and parsing the
    text back with [strptime] gives the same date. *)
Theorem strptime_date_isoformat (d : date) :
  valid_date d = true → strptime_date (isoformat d) = Ret d.
Proof. destruct d as [y m dd]. apply strptime_date_make_date. Qed.

Lemma strptime_date_isoformat_witness :
  strptime_date (isoformat (mkdate 2024 2 29)) = Ret (mkdate 2024 2 29).
Proof. apply (strptime_date_isoformat (mkdate 2024 2 29)). reflexivity. Defined.

(** ** The date validator *)

Lemma date_replace_year_raises (d : date) (y : Z) (e : exn) :
  date_replace_year d y = Raise e → e = ValueError.
Proof.
  unfold date_replace_year, make_date. destruct (valid_ymd _ _ _); congruence.
Qed.

Lemma date_replace_year_Ret (d limit : date) (y : Z) :
  date_replace_year d y = Ret limit →
  limit = mkdate y (month d) (day d) ∧ valid_date limit = true.
Proof.
  unfold date_replace_year, make_date.
  destruct (valid_ymd _ _ _) eqn:Hv; [| congruence].
  intros [= <-]. done.
Qed.

Lemma date_ltb_irrefl (d : date) : date_ltb d d = false.
Proof.
  unfold date_ltb. rewrite !Z.ltb_irrefl, !Z.eqb_refl. done.
Qed.

Lemma date_ltb_next_year (d : date) :
  date_ltb (mkdate (year d + 1) (month d) (day d)) d = false.
Proof.
  unfold date_ltb. simpl.
  destruct (Z.ltb_spec (year d + 1) (year d)); [lia |].
  destruct (Z.eqb_spec (year d + 1) (year d)); [lia | done].
Qed.

(** When [today.replace(year=today.year + 1)] raises, every text gets the
    format message. *)
Lemma validate_date_replace_fails (today : date) (text : string) :
  date_replace_year today (year today + 1) = Raise ValueError →
  validate_date today text = Ret (Some InvalidFormat).
Proof.
  intros Hfail. unfold validate_date, validate_date_try.
  destruct (strptime_date text) as [d | e] eqn:Hparse; simpl.
  - by rewrite Hfail.
  - by rewrite (strptime_date_raises _ _ Hparse).
Qed.

(** X2. [validate_date] never raises: whatever the day and the text, it
    returns a message or [None]; the only exception its body can raise is
    [ValueError], which it catches. *)
Theorem validate_date_never_raises (today : date) (text : string) :
  ∃ result, validate_date today text = Ret result.
Proof.
  unfold validate_date, validate_date_try.
  destruct (strptime_date text) as [d | e] eqn:Hparse; simpl.
  - destruct (date_replace_year today (year today + 1)) as [limit | e] eqn:Hr;
      simpl.
    + destruct (date_ltb d today); [eauto |].
      destruct (date_ltb limit d); eauto.
    + rewrite (date_replace_year_raises _ _ _ Hr). eauto.
  - rewrite (strptime_date_raises _ _ Hparse). eauto.
Qed.

(** X3. On a day that has a counterpart one year later, both ends of the
    allowed range are accepted when typed as [isoformat] prints them:
    today itself, and the limit named in the too-far message. *)
Theorem validate_date_accepts_range_ends (today limit : date) :
  valid_date today = true →
  date_replace_year today (year today + 1) = Ret limit →
  validate_date today (isoformat today) = Ret None
  ∧ validate_date today (isoformat limit) = Ret None.
Proof.
  intros Hv Hlimit.
  destruct (date_replace_year_Ret _ _ _ Hlimit) as [Heq Hvl].
  split.
  - destruct (validate_date_ordinary_day today limit (isoformat today) Hlimit)
      as [_ H].
    destruct today as [y m d].
    destruct (H _ (strptime_date_make_date y m d Hv)) as (_ & _ & Hok).
    apply Hok; [apply date_ltb_irrefl |].
    rewrite Heq. apply (date_ltb_next_year (mkdate y m d)).
  - destruct (validate_date_ordinary_day today limit (isoformat limit) Hlimit)
      as [_ H].
    assert (Hparse : strptime_date (isoformat limit) = Ret limit).
    { destruct limit as [y m d]. by apply strptime_date_make_date. }
    destruct (H _ Hparse) as (_ & _ & Hok).
    apply Hok; [| apply date_ltb_irrefl].
    destruct (date_ltb limit today) eqn:Hlt; [| done].
    rewrite Heq in Hlt.
    unfold date_ltb in Hlt. simpl in Hlt.
    destruct (Z.ltb_spec (year today + 1) (year today)); [lia |].
    destruct (Z.eqb_spec (year today + 1) (year today)); [lia | done].
Qed.

Lemma validate_date_accepts_range_ends_witness :
  validate_date (mkdate 2024 6 15) (isoformat (mkdate 2024 6 15)) = Ret None
  ∧ validate_date (mkdate 2024 6 15) (isoformat (mkdate 2025 6 15)) = Ret None.
Proof.
  apply (validate_date_accepts_range_ends (mkdate 2024 6 15) (mkdate 2025 6 15));
    reflexivity.
Defined.

Lemma date_replace_year_next (today : date) :
  valid_date today = true →
  ¬ (month today = 2 ∧ day today = 29) → year today ≠ 9999 →
  date_replace_year today (year today + 1)
  = Ret (mkdate (year today + 1) (month today) (day today)).
Proof.
  destruct today as [y m d]. unfold valid_date, date_replace_year, make_date.
  simpl. intros Hv Hleap Hy.
  assert (Hv' : valid_ymd (y + 1) m d = true); [| by rewrite Hv'].
  revert Hv. unfold valid_ymd, days_in_month.
  rewrite !andb_true_iff, !Z.leb_le.
  intros (((((? & ?) & ?) & ?) & ?) & Hd).
  repeat split; try lia.
  destruct (Z.eqb_spec m 2) as [-> | Hm]; [| exact Hd].
  destruct (is_leap y), (is_leap (y + 1)); lia.
Qed.

(** X4. The days on which [validate_date] rejects every text with the
    format message are exactly the 29th of February and the days of the
    year 9999: the days without a counterpart one year later. *)
Theorem validate_date_unusable_iff (today : date) :
  valid_date today = true →
  (∀ text, validate_date today text = Ret (Some InvalidFormat))
  ↔ (month today = 2 ∧ day today = 29) ∨ year today = 9999.
Proof.
  intros Hv. split.
  - intros Hall.
    destruct (decide (month today = 2 ∧ day today = 29)) as [| Hleap]; [tauto |].
    destruct (decide (year today = 9999)) as [| Hy]; [tauto |].
    exfalso.
    pose proof (date_replace_year_next today Hv Hleap Hy) as Hlimit.
    destruct (validate_date_ordinary_day today _ (isoformat today) Hlimit)
      as [_ H].
    assert (Hparse : strptime_date (isoformat today) = Ret today).
    { destruct today as [y m d]. by apply strptime_date_make_date. }
    destruct (H _ Hparse) as (_ & _ & Hok).
    rewrite Hall in Hok.
    specialize (Hok (date_ltb_irrefl today) (date_ltb_next_year today)).
    discriminate Hok.
  - intros [[Hm Hd] | Hy] text; apply validate_date_replace_fails.
    + by apply replace_year_leap_day.
    + unfold date_replace_year, make_date, valid_ymd. rewrite Hy. simpl.
      done.
Qed.

Lemma validate_date_unusable_iff_witness :
  validate_date (mkdate 9999 3 1) "9999-06-01" = Ret (Some InvalidFormat).
Proof.
  apply (proj2 (validate_date_unusable_iff (mkdate 9999 3 1) eq_refl)).
  by right.
Defined.

(** ** The merger, beyond the three cases *)

Lemma safe_average_mean2 (v1 v2 : pyval) :
  is_None v1 = false → is_None v2 = false →
  safe_average v1 v2 = mean2 v1 v2.
Proof. destruct v1, v2; try discriminate; done. Qed.

Lemma mean2_not_numbers (v1 v2 : pyval) :
  is_number v1 && is_number v2 = false → mean2 v1 v2 = Raise TypeError.
Proof.
  unfold mean2, is_number.
  destruct (as_number v1), (as_number v2); try done.
Qed.

(** What [safe_average] does on two objects of any kind. *)
Lemma safe_average_outcomes (v1 v2 : pyval) :
  (averageable v1 v2 = false → safe_average v1 v2 = Raise TypeError)
  ∧ (∀ e, safe_average v1 v2 = Raise e → e = TypeError ∨ e = OverflowError)
  ∧ (averageable v1 v2 = true →
     in_float_range v1 = true → in_float_range v2 = true →
     ∃ r, safe_average v1 v2 = Ret r).
Proof.
  unfold averageable.
  destruct (is_None v1) eqn:H1.
  { destruct v1; try discriminate. destruct v2; simpl; repeat split;
      try discriminate; eauto. }
  destruct (is_None v2) eqn:H2.
  { destruct v2; try discriminate. destruct v1; simpl; repeat split;
      try discriminate; eauto. }
  rewrite (safe_average_mean2 v1 v2 H1 H2). cbn [orb].
  destruct (is_number v1 && is_number v2) eqn:Hn.
  - apply andb_true_iff in Hn as [Hn1 Hn2]. unfold is_number in Hn1, Hn2.
    destruct (as_number v1) as [a |] eqn:Ha; [| discriminate].
    destruct (as_number v2) as [b |] eqn:Hb; [| discriminate].
    destruct (mean2_numbers v1 v2 a b Ha Hb) as (Hr & _ & Hok).
    repeat split; [discriminate | | by intros _].
    intros e He. right. by apply Hr.
  - rewrite (mean2_not_numbers v1 v2 Hn).
    repeat split; [| discriminate]. intros e [= <-]. by left.
Qed.

(** X5. With both forecasts present, whatever their keys and values,
    [calculate_forecast] raises nothing but [TypeError] and
    [OverflowError]. It returns only when every field can be averaged
    (one side is [None] or missing, or both sides are numbers), and what
    it returns has the three fields and no others. It does return when
    every field can be averaged and no field is an int past the float
    range. *)
Theorem calculate_forecast_outcomes (d1 d2 : gmap string pyval) :
  (∀ e, calculate_forecast (Some d1) (Some d2) = Raise e →
        e = TypeError ∨ e = OverflowError)
  ∧ (∀ r, calculate_forecast (Some d1) (Some d2) = Ret r →
        dom r = list_to_set forecast_fields
        ∧ forallb (fun k => averageable (dict_get d1 k) (dict_get d2 k))
            forecast_fields = true)
  ∧ (forallb (fun k => averageable (dict_get d1 k) (dict_get d2 k))
       forecast_fields = true →
     forecast_in_float_range d1 = true → forecast_in_float_range d2 = true →
     ∃ r, calculate_forecast (Some d1) (Some d2) = Ret r).
Proof.
  split; [| split].
  - intros e He.
    destruct (calculate_forecast_raises _ _ _ He) as (k & _ & Hraise).
    by apply (safe_average_outcomes (dict_get d1 k) (dict_get d2 k)).
  - intros r Hr. split; [by apply calculate_forecast_dom in Hr |].
    apply forallb_forecast_fields_intro. intros k Hk.
    destruct (calculate_forecast_fields _ _ _ _ Hr Hk) as (v & Hv & _).
    destruct (averageable (dict_get d1 k) (dict_get d2 k)) eqn:Hav; [done |].
    apply (safe_average_outcomes (dict_get d1 k) (dict_get d2 k)) in Hav.
    congruence.
  - intros Hav Hr1 Hr2. apply calculate_forecast_returns. intros k Hk.
    apply (safe_average_outcomes (dict_get d1 k) (dict_get d2 k)).
    + by apply (forallb_forecast_fields _ Hav).
    + by apply (forallb_forecast_fields _ Hr1).
    + by apply (forallb_forecast_fields _ Hr2).
Qed.

Lemma calculate_forecast_outcomes_witness :
  ∃ r, calculate_forecast (Some (make_forecast (PBool true) (num 7) PNone))
                          (Some (make_forecast (PFloat 20.5) PNone (PStr "dry")))
       = Ret r.
Proof.
  apply (calculate_forecast_outcomes
           (make_forecast (PBool true) (num 7) PNone)
           (make_forecast (PFloat 20.5) PNone (PStr "dry")));
    by vm_compute.
Defined.

Lemma truthy_zero_forecast : truthy (PDict zero_forecast) = true.
Proof.
  apply (lookup_Some_truthy _ "max_temp" (num 0)).
  apply (make_forecast_lookup (num 0) (num 0) (num 0)).
Qed.

Lemma truthy_or_zero_forecast (f : option (gmap string pyval)) :
  truthy (PDict (or_zero_forecast f)) = true.
Proof.
  destruct f as [d |]; unfold or_zero_forecast; [| apply truthy_zero_forecast].
  destruct (truthy (PDict d)) eqn:Hd; [exact Hd | apply truthy_zero_forecast].
Qed.

(** X6. [calculate_forecast] never returns an empty dictionary, so the
    test [not forecast] of the handler is never true. *)
Theorem calculate_forecast_nonempty (f1 f2 : option (gmap string pyval))
    (r : gmap string pyval) :
  calculate_forecast f1 f2 = Ret r → truthy (PDict r) = true.
Proof.
  unfold calculate_forecast.
  destruct f1 as [d1 |]; [destruct f2 as [d2 |] |].
  - destruct (safe_average (dict_get d1 "max_temp") _) as [mx | e];
      [| intros H; discriminate H].
    destruct (safe_average (dict_get d1 "min_temp") _) as [mn | e];
      [| intros H; discriminate H].
    destruct (safe_average (dict_get d1 "precipitation") _) as [pr | e];
      [| intros H; discriminate H].
    intros H. injection H as <-.
    apply (lookup_Some_truthy _ "max_temp" mx).
    apply (make_forecast_lookup mx mn pr).
  - intros H. injection H as <-. apply (truthy_or_zero_forecast (Some d1)).
  - intros H. injection H as <-. apply (truthy_or_zero_forecast f2).
Qed.

Lemma calculate_forecast_nonempty_witness :
  truthy (PDict zero_forecast) = true.
Proof.
  apply (calculate_forecast_nonempty (Some ∅) None zero_forecast).
  reflexivity.
Defined.
(** ** The forecast clients, beyond the specified cases *)

Lemma get_weather_openweathermap_object (http_json : request → outcome pyval)
    (lat lon : pyval) (api_key date : string)
    (data current_data rain : gmap string pyval) :
  http_json (OneCallTimemachine lat lon api_key date) = Ret (PDict data) →
  dict_get_default data "current" (PDict ∅) = PDict current_data →
  dict_get_default current_data "rain" (PDict ∅) = PDict rain →
  get_weather_openweathermap http_json lat lon api_key date
  = Ret (Some (make_forecast (dict_get current_data "temp")
                             (dict_get current_data "temp")
                             (dict_get_default rain "1h" (num 0)))).
Proof.
  intros Hresp Hcur Hrain.
  unfold get_weather_openweathermap, get_weather_openweathermap_try.
  rewrite Hresp. simpl. rewrite Hcur. simpl. by rewrite Hrain.
Qed.

(** A forecast returned by either client is built by the dictionary
    display of the source: the three keys, each with a value. *)
Lemma get_weather_open_meteo_shape (http_json : request → outcome pyval)
    (lat lon : pyval) (date : string) (d : gmap string pyval) :
  get_weather_open_meteo http_json lat lon date = Ret (Some d) →
  ∃ a b c, d = make_forecast a b c.
Proof.
  unfold get_weather_open_meteo, get_weather_open_meteo_try.
  destruct (http_json _) as [data | e]; simpl; [| by destruct e].
  destruct (py_get data _ _) as [daily | e]; simpl; [| by destruct e].
  destruct (truthy daily); [| intros H; discriminate H].
  destruct (py_getitem "temperature_2m_max" daily) as [x | e]; simpl;
    [| by destruct e].
  destruct (py_getitem_0 x) as [a | e]; simpl; [| by destruct e].
  destruct (py_getitem "temperature_2m_min" daily) as [y | e]; simpl;
    [| by destruct e].
  destruct (py_getitem_0 y) as [b | e]; simpl; [| by destruct e].
  destruct (py_getitem "precipitation_sum" daily) as [z | e]; simpl;
    [| by destruct e].
  destruct (py_getitem_0 z) as [c | e]; simpl; [| by destruct e].
  intros H. injection H as <-. eauto.
Qed.

Lemma get_weather_openweathermap_shape (http_json : request → outcome pyval)
    (lat lon : pyval) (api_key date : string) (d : gmap string pyval) :
  get_weather_openweathermap http_json lat lon api_key date = Ret (Some d) →
  ∃ a b c, d = make_forecast a b c.
Proof.
  unfold get_weather_openweathermap, get_weather_openweathermap_try.
  destruct (http_json _) as [data | e]; simpl; [| by destruct e].
  destruct (py_get data _ _) as [current_data | e]; simpl; [| by destruct e].
  destruct (py_get current_data "temp" _) as [temp | e]; simpl;
    [| by destruct e].
  destruct (py_get current_data "rain" _) as [rain | e]; simpl;
    [| by destruct e].
  destruct (py_get rain _ _) as [precipitation | e]; simpl; [| by destruct e].
  intros H. injection H as <-. eauto.
Qed.

Lemma calculate_forecast_one_side (a b c : pyval) :
  calculate_forecast (Some (make_forecast a b c)) None = Ret (make_forecast a b c)
  ∧ calculate_forecast None (Some (make_forecast a b c))
    = Ret (make_forecast a b c).
Proof.
  unfold calculate_forecast, or_zero_forecast.
  rewrite (lookup_Some_truthy _ "max_temp" a)
    by apply (make_forecast_lookup a b c).
  done.
Qed.

(** X9. A forecast delivered by either client has exactly the three
    fields, so it is never the empty dictionary: when the other source is
    absent the merger returns it unchanged. *)
Theorem client_forecast_passes_unchanged (http_json : request → outcome pyval)
    (lat lon : pyval) (api_key date : string) (d : gmap string pyval) :
  get_weather_open_meteo http_json lat lon date = Ret (Some d)
  ∨ get_weather_openweathermap http_json lat lon api_key date = Ret (Some d) →
  dom d = list_to_set forecast_fields
  ∧ calculate_forecast (Some d) None = Ret d
  ∧ calculate_forecast None (Some d) = Ret d.
Proof.
  intros Hd.
  assert (Hshape : ∃ a b c, d = make_forecast a b c).
  { destruct Hd as [Hd | Hd].
    - by apply get_weather_open_meteo_shape in Hd.
    - by apply get_weather_openweathermap_shape in Hd. }
  destruct Hshape as (a & b & c & ->).
  split; [apply make_forecast_dom | apply calculate_forecast_one_side].
Qed.

Lemma client_forecast_passes_unchanged_witness :
  calculate_forecast (Some (make_forecast PNone PNone (num 0))) None
  = Ret (make_forecast PNone PNone (num 0)).
Proof.
  apply (client_forecast_passes_unchanged empty_response (num 0) (num 0)
           "key" "2024-06-15" (make_forecast PNone PNone (num 0))).
  right. reflexivity.
Defined.

(** X10. The Open-Meteo client does not guard the three arrays: with a
    non-empty [daily] object, a missing array raises [KeyError] and an
    empty array raises [IndexError], and neither is caught. *)
Theorem get_weather_open_meteo_malformed_daily
    (http_json : request → outcome pyval) (lat lon : pyval) (date : string)
    (data daily : gmap string pyval) :
  http_json (OpenMeteoForecast lat lon date) = Ret (PDict data) →
  data !! "daily" = Some (PDict daily) →
  daily ≠ ∅ →
  (daily !! "temperature_2m_max" = None →
     get_weather_open_meteo http_json lat lon date = Raise KeyError)
  ∧ (daily !! "temperature_2m_max" = Some (PList []) →
     get_weather_open_meteo http_json lat lon date = Raise IndexError).
Proof.
  intros Hresp Hdaily Hne.
  unfold get_weather_open_meteo, get_weather_open_meteo_try.
  rewrite Hresp. simpl. unfold dict_get_default. rewrite Hdaily.
  cbn [default from_option id]. simpl truthy.
  rewrite bool_decide_eq_false_2 by done. simpl.
  split; intros ->; done.
Qed.

Lemma get_weather_open_meteo_malformed_daily_witness :
  get_weather_open_meteo
    (fun _ => Ret (PDict {[ "daily" := PDict {[ "time" := PList [] ]} ]}))
    (num 0) (num 0) "2024-06-15"
  = Raise KeyError.
Proof.
  refine (proj1 (get_weather_open_meteo_malformed_daily
                   (fun _ => Ret (PDict {[ "daily" := PDict {[ "time" := PList [] ]} ]}))
                   (num 0) (num 0) "2024-06-15"
                   {[ "daily" := PDict {[ "time" := PList [] ]} ]}
                   {[ "time" := PList [] ]} eq_refl eq_refl _) eq_refl).
  apply insert_non_empty.
Defined.

(** X11. Both clients catch [RequestException] only: any other exception
    of the request, and the [AttributeError] of a response that is not a
    JSON object, reach the caller. *)
Theorem clients_propagate_other_exceptions
    (http_json : request → outcome pyval) (lat lon : pyval)
    (api_key date : string) :
  (∀ e, e ≠ RequestException →
     (http_json (OpenMeteoForecast lat lon date) = Raise e →
        get_weather_open_meteo http_json lat lon date = Raise e)
     ∧ (http_json (OneCallTimemachine lat lon api_key date) = Raise e →
        get_weather_openweathermap http_json lat lon api_key date = Raise e))
  ∧ (∀ v, is_dict v = false →
     (http_json (OpenMeteoForecast lat lon date) = Ret v →
        get_weather_open_meteo http_json lat lon date = Raise AttributeError)
     ∧ (http_json (OneCallTimemachine lat lon api_key date) = Ret v →
        get_weather_openweathermap http_json lat lon api_key date
        = Raise AttributeError)).
Proof.
  split.
  - intros e He. split; intros Hresp.
    + unfold get_weather_open_meteo, get_weather_open_meteo_try.
      rewrite Hresp. by destruct e.
    + unfold get_weather_openweathermap, get_weather_openweathermap_try.
      rewrite Hresp. by destruct e.
  - intros v Hv. split; intros Hresp.
    + unfold get_weather_open_meteo, get_weather_open_meteo_try.
      rewrite Hresp. by destruct v.
    + unfold get_weather_openweathermap, get_weather_openweathermap_try.
      rewrite Hresp. by destruct v.
Qed.

Lemma clients_propagate_other_exceptions_witness :
  get_weather_open_meteo (fun _ => Ret (PList [])) (num 0) (num 0) "2024-06-15"
  = Raise AttributeError.
Proof.
  apply (proj2 (clients_propagate_other_exceptions
                  (fun _ => Ret (PList [])) (num 0) (num 0) "key" "2024-06-15")
           (PList []) eq_refl).
  reflexivity.
Defined.

(** X12. The OpenWeatherMap client raises [AttributeError] when the
    response has a [current] member that is not an object (JSON [null],
    for one); the default [{}] only covers a missing member. *)
Theorem get_weather_openweathermap_current_not_object
    (http_json : request → outcome pyval) (lat lon : pyval)
    (api_key date : string) (data : gmap string pyval) (current_data : pyval) :
  http_json (OneCallTimemachine lat lon api_key date) = Ret (PDict data) →
  data !! "current" = Some current_data →
  is_dict current_data = false →
  get_weather_openweathermap http_json lat lon api_key date
  = Raise AttributeError.
Proof.
  intros Hresp Hcur Hnot.
  unfold get_weather_openweathermap, get_weather_openweathermap_try.
  rewrite Hresp. simpl. unfold dict_get_default. rewrite Hcur.
  cbn [default from_option id]. by destruct current_data.
Qed.

Lemma get_weather_openweathermap_current_not_object_witness :
  get_weather_openweathermap (fun _ => Ret (PDict {[ "current" := PNone ]}))
    (num 0) (num 0) "key" "2024-06-15"
  = Raise AttributeError.
Proof.
  apply (get_weather_openweathermap_current_not_object
           (fun _ => Ret (PDict {[ "current" := PNone ]}))
           (num 0) (num 0) "key" "2024-06-15" {[ "current" := PNone ]} PNone);
    reflexivity.
Defined.

(** Adding the float zero changes no float but the negative zero. *)
Lemma float_add_zero (f : float) :
  f ≠ neg_zero → PrimFloat.add f zero = f.
Proof.
  intros Hf. apply Prim2SF_inj. rewrite add_spec.
  change (Prim2SF zero) with (S754_zero false).
  destruct (Prim2SF f) as [s | s | | s m e] eqn:Hsf; try reflexivity.
  destruct s; [| reflexivity].
  exfalso. apply Hf. apply Prim2SF_inj. by rewrite Hsf.
Qed.

Lemma py_add_zero (p : number) :
  p ≠ NFloat neg_zero → py_add p (NInt 0) = Ret p.
Proof.
  intros Hp. destruct p as [x | x]; cbn [py_add].
  - by rewrite Z.add_0_r.
  - assert (H0 : float_of_int 0 = Ret zero) by (by vm_compute).
    rewrite H0. cbn [mbind outcome_bind].
    rewrite float_add_zero; [done |]. by intros ->.
Qed.

Lemma number_neq_by_value (a b : number) : value_of a ≠ value_of b → a ≠ b.
Proof. by intros Hv ->. Qed.

(** X13. The zero that the OpenWeatherMap client fills in for a missing
    [rain] member is averaged like a measurement: merged with a forecast
    whose precipitation is a number [p], it gives the float that Python
    computes for [p / 2] (for every number but the float [-0.0], whose
    sum with [0] is [0.0]). *)
Theorem missing_rain_halves_precipitation
    (http_json : request → outcome pyval) (lat lon : pyval)
    (api_key date : string) (data current_data d1 : gmap string pyval)
    (p : number) :
  http_json (OneCallTimemachine lat lon api_key date) = Ret (PDict data) →
  data !! "current" = Some (PDict current_data) →
  current_data !! "rain" = None →
  as_number (dict_get d1 "precipitation") = Some p →
  p ≠ NFloat neg_zero →
  ∃ d2, get_weather_openweathermap http_json lat lon api_key date = Ret (Some d2)
        ∧ d2 !! "precipitation" = Some (num 0)
        ∧ ∀ r, calculate_forecast (Some d1) (Some d2) = Ret r →
               ∃ half, py_truediv p 2 = Ret half
                       ∧ r !! "precipitation" = Some (PFloat half).
Proof.
  intros Hresp Hcur Hrain Hp Hnz.
  eexists. split; [| split].
  - apply (get_weather_openweathermap_object _ _ _ _ _ data current_data ∅ Hresp).
    + unfold dict_get_default. by rewrite Hcur.
    + unfold dict_get_default. by rewrite Hrain.
  - apply make_forecast_lookup.
  - intros r Hr.
    destruct (calculate_forecast_fields _ _ _ "precipitation" Hr)
      as (v & Hv & Hlook).
    { unfold forecast_fields. set_solver. }
    destruct (make_forecast_get (dict_get current_data "temp")
                (dict_get current_data "temp")
                (dict_get_default ∅ "1h" (num 0))) as (_ & _ & Hget).
    rewrite Hget in Hv.
    assert (Hzero : dict_get_default ∅ "1h" (num 0) = num 0) by reflexivity.
    rewrite Hzero in Hv.
    rewrite safe_average_mean2 in Hv;
      [| by destruct (dict_get d1 "precipitation") | done].
    destruct (mean2_numbers _ (num 0) p (NInt 0) Hp eq_refl) as (_ & Hval & _).
    destruct (Hval v Hv) as (total & half & Hadd & Hdiv & ->).
    rewrite (py_add_zero p Hnz) in Hadd. injection Hadd as <-.
    by exists half.
Qed.

Lemma missing_rain_halves_precipitation_witness :
  ∃ d2, get_weather_openweathermap temp_only_response (num 0) (num 0)
          "key" "2024-06-15" = Ret (Some d2)
        ∧ d2 !! "precipitation" = Some (num 0)
        ∧ ∀ r, calculate_forecast
                 (Some (make_forecast (num 20) (num 10) (PFloat 4.5))) (Some d2)
               = Ret r →
               ∃ half, py_truediv (NFloat 4.5) 2 = Ret half
                       ∧ r !! "precipitation" = Some (PFloat half).
Proof.
  apply (missing_rain_halves_precipitation temp_only_response (num 0) (num 0)
           "key" "2024-06-15"
           {[ "current" := PDict {[ "temp" := PFloat 21.5 ]} ]}
           {[ "temp" := PFloat 21.5 ]}
           (make_forecast (num 20) (num 10) (PFloat 4.5)) (NFloat 4.5));
    try reflexivity.
  apply number_neq_by_value. by vm_compute.
Defined.
(** ** The geocoder, beyond the specified cases *)

(** X14. When the response object has a non-empty list of results whose
    first element is an object, the geocoder returns the latitude and the
    longitude of that first result ([None] for a member it lacks); the
    other results play no part. *)
Theorem get_coordinates_first (http_json : request → outcome pyval)
    (city country : string) (data first : gmap string pyval)
    (others : list pyval) :
  http_json (GeocodingSearch city country) = Ret (PDict data) →
  data !! "results" = Some (PList (PDict first :: others)) →
  get_coordinates http_json city country
  = Ret (dict_get first "latitude", dict_get first "longitude").
Proof.
  intros Hresp Hres. unfold get_coordinates. rewrite Hresp.
  unfold py_contains, py_getitem. cbn [mbind outcome_bind].
  rewrite Hres. cbn [mbind outcome_bind fmap outcome_fmap].
  rewrite bool_decide_eq_true_2 by eauto.
  reflexivity.
Qed.

Lemma get_coordinates_first_witness :
  get_coordinates
    (fun _ => Ret (PDict {[ "results" :=
       PList [PDict {[ "latitude" := PFloat 12.97 ]}; PNone] ]}))
    "Bengaluru" "91"
  = Ret (PFloat 12.97, PNone).
Proof.
  exact (get_coordinates_first
           (fun _ => Ret (PDict {[ "results" :=
              PList [PDict {[ "latitude" := PFloat 12.97 ]}; PNone] ]}))
           "Bengaluru" "91"
           {[ "results" :=
                PList [PDict {[ "latitude" := PFloat 12.97 ]}; PNone] ]}
           {[ "latitude" := PFloat 12.97 ]} [PNone] eq_refl eq_refl).
Defined.
(** ** The submit handler *)

Lemma lstrip_all_space (s : string) : all_space s = true → lstrip s = "".
Proof.
  induction s as [| c rest IH]; [done |]. simpl.
  destruct (is_space c); [apply IH | discriminate].
Qed.

Lemma lstrip_head (s : string) :
  all_space s = false →
  ∃ c rest, lstrip s = String c rest ∧ is_space c = false.
Proof.
  induction s as [| c rest IH]; [discriminate |]. simpl.
  destruct (is_space c) eqn:Hc; [apply IH | eauto].
Qed.

Lemma rstrip_head (c : ascii) (rest : string) :
  is_space c = false → rstrip (String c rest) ≠ "".
Proof.
  intros Hc. simpl. destruct (rstrip rest); [by rewrite Hc | discriminate].
Qed.

(** [strip] leaves nothing exactly of the texts made of blanks. *)
Lemma strip_empty_iff (s : string) :
  truthy (PStr (strip s)) = negb (all_space s).
Proof.
  unfold truthy, strip. destruct (all_space s) eqn:Hs.
  - by rewrite (lstrip_all_space s Hs).
  - destruct (lstrip_head s Hs) as (c & rest & -> & Hc).
    by rewrite bool_decide_eq_false_2 by by apply rstrip_head.
Qed.

Lemma validate_date_message (today : date) (text message : string) :
  validate_date today text = Ret (Some message) → message ≠ "".
Proof.
  unfold validate_date, validate_date_try.
  destruct (strptime_date text) as [d | e] eqn:Hparse; simpl.
  - destruct (date_replace_year today (year today + 1)) as [limit | e] eqn:Hr;
      simpl.
    + destruct (date_ltb d today); [by intros [= <-] |].
      destruct (date_ltb limit d); [by intros [= <-] | discriminate].
    + rewrite (date_replace_year_raises _ _ _ Hr). by intros [= <-].
  - rewrite (strptime_date_raises _ _ Hparse). by intros [= <-].
Qed.

Lemma reported_validate_date (today : date) (text : string)
    (error : option string) :
  validate_date today text = Ret error → reported error = error.
Proof.
  destruct error as [message |]; [| done].
  intros H. apply validate_date_message in H. unfold reported, truthy.
  by rewrite bool_decide_eq_false_2.
Qed.

Lemma reported_validate_phone_country_code (code : string) :
  reported (validate_phone_country_code code) = validate_phone_country_code code.
Proof.
  unfold validate_phone_country_code. case_bool_decide; done.
Qed.

(** Runs: a step that does not touch the window, and a step that does. *)
Lemma lift_bind {A B : Type} (m : outcome A) (f : A → ui B) :
  lift m ≫= f = match m with
                | Ret a => f a
                | Raise e => Run [] (Raise e)
                end.
Proof.
  destruct m as [a | e]; unfold mbind, ui_bind, lift; simpl; [| done].
  by destruct (f a).
Qed.

Lemma act_bind {B : Type} (a : ui_action) (f : unit → ui B) :
  act a ≫= f = Run (a :: shown (f tt)) (ended (f tt)).
Proof. reflexivity. Qed.

(** Once the three fields are accepted, the handler goes on to the
    network with the stripped texts. *)
Lemma show_forecast_accepted (http_json : request → outcome pyval) (today : date)
    (city_entry country_entry date_entry : string) :
  inputs_accepted today city_entry country_entry date_entry = true →
  show_forecast http_json today city_entry country_entry date_entry
  = fetch_and_present http_json (strip city_entry) (strip country_entry)
      (strip date_entry).
Proof.
  unfold inputs_accepted, show_forecast.
  rewrite !andb_true_iff. intros ((((Hc & Hk) & Hd) & Hdate) & Hcode).
  rewrite !strip_empty_iff, Hc, Hk, Hd. cbn [andb negb].
  rewrite lift_bind.
  destruct (validate_date today (strip date_entry)) as [[m |] | e];
    try discriminate Hdate.
  cbn [reported].
  rewrite reported_validate_phone_country_code.
  by destruct (validate_phone_country_code (strip country_entry)).
Qed.

(** The ways the handler can go, by the checks it makes in order. *)
Lemma show_forecast_cases (http_json : request → outcome pyval) (today : date)
    (city_entry country_entry date_entry : string) :
  (all_space city_entry || all_space country_entry || all_space date_entry
   = true
   ∧ show_forecast http_json today city_entry country_entry date_entry
     = Run [ShowWarning "Input Error" "Provide all inputs: city, country, date."]
           (Ret tt))
  ∨ (∃ title message,
       show_forecast http_json today city_entry country_entry date_entry
       = Run [ShowError title message] (Ret tt))
  ∨ (∃ e, show_forecast http_json today city_entry country_entry date_entry
          = Run [] (Raise e))
  ∨ (inputs_accepted today city_entry country_entry date_entry = true
     ∧ show_forecast http_json today city_entry country_entry date_entry
       = fetch_and_present http_json (strip city_entry) (strip country_entry)
           (strip date_entry)).
Proof.
  destruct (inputs_accepted today city_entry country_entry date_entry) eqn:Hacc.
  { right. right. right. split; [done |]. by apply show_forecast_accepted. }
  revert Hacc. unfold inputs_accepted, show_forecast.
  rewrite !strip_empty_iff.
  destruct (all_space city_entry), (all_space country_entry),
    (all_space date_entry); cbn [negb andb orb]; try (left; done).
  rewrite lift_bind.
  destruct (validate_date today (strip date_entry)) as [error | e] eqn:Hdate;
    [| right; right; left; eauto].
  rewrite (reported_validate_date _ _ _ Hdate).
  destruct error as [message |]; [right; left; eauto |].
  rewrite reported_validate_phone_country_code.
  destruct (validate_phone_country_code (strip country_entry));
    [right; left; eauto | discriminate].
Qed.

Lemma all_None_0_unfold (forecast : gmap string pyval) :
  in_None_0 (dict_get forecast "max_temp")
  && in_None_0 (dict_get forecast "min_temp")
  && in_None_0 (dict_get forecast "precipitation")
  = all_None_0 forecast.
Proof.
  unfold all_None_0, forecast_fields. cbn [forallb].
  by rewrite andb_true_r, andb_assoc.
Qed.

(** The test of the handler for "no data" is the test of the three
    fields: an empty dictionary has none of them. *)
Lemma no_data_test (forecast : gmap string pyval) :
  negb (truthy (PDict forecast))
  || (in_None_0 (dict_get forecast "max_temp")
      && in_None_0 (dict_get forecast "min_temp")
      && in_None_0 (dict_get forecast "precipitation"))
  = all_None_0 forecast.
Proof.
  rewrite all_None_0_unfold.
  destruct (decide (forecast = ∅)) as [-> | Hne].
  - unfold all_None_0, forecast_fields, dict_get. cbn [forallb].
    rewrite !lookup_empty. by rewrite orb_true_r.
  - cbn [truthy]. by rewrite bool_decide_eq_false_2.
Qed.

Lemma present_forecast_no_data (city date : string)
    (forecast : gmap string pyval) :
  all_None_0 forecast = true →
  present_forecast city date forecast = no_forecast_shown.
Proof.
  intros H. unfold present_forecast. by rewrite no_data_test, H.
Qed.

(** With data, the handler builds the text of the label, which can raise,
    then sets the label and chooses the icon. *)
Lemma present_forecast_data (city date : string)
    (forecast : gmap string pyval) :
  all_None_0 forecast = false →
  present_forecast city date forecast
  = match forecast !! "max_temp" with
    | None => Run [] (Raise KeyError)
    | Some max_temp =>
        match fahrenheit max_temp with
        | Raise e => Run [] (Raise e)
        | Ret _ =>
            match forecast !! "min_temp" with
            | None => Run [] (Raise KeyError)
            | Some min_temp =>
                match fahrenheit min_temp with
                | Raise e => Run [] (Raise e)
                | Ret _ =>
                    match forecast !! "precipitation" with
                    | None => Run [] (Raise KeyError)
                    | Some precipitation =>
                        forecast_shown city date max_temp min_temp precipitation
                    end
                end
            end
        end
    end.
Proof.
  intros H. unfold present_forecast. rewrite no_data_test, H.
  unfold py_getitem.
  rewrite lift_bind. destruct (forecast !! "max_temp") as [mx |]; [| done].
  rewrite lift_bind. destruct (fahrenheit mx) as [fx | e]; [| done].
  rewrite lift_bind. destruct (forecast !! "min_temp") as [mn |]; [| done].
  rewrite lift_bind. destruct (fahrenheit mn) as [fn | e]; [| done].
  rewrite lift_bind.
  destruct (forecast !! "precipitation") as [pr |]; [| done].
  rewrite act_bind. cbn [mbind outcome_bind].
  unfold forecast_shown, get_weather_icon_of.
  rewrite lift_bind. by destruct (as_number pr).
Qed.

(** The conversion to Fahrenheit: when it returns, and what it raises. *)
Lemma fahrenheit_outcomes (v : pyval) :
  (has_fahrenheit v = true → ∃ f, fahrenheit v = Ret f)
  ∧ (is_number v = false → fahrenheit v = Raise TypeError)
  ∧ (is_number v = true → has_fahrenheit v = false →
     fahrenheit v = Raise OverflowError)
  ∧ (∀ f, fahrenheit v = Ret f → has_fahrenheit v = true).
Proof.
  unfold has_fahrenheit, is_number, fahrenheit.
  destruct (as_number v) as [[z | x] |];
    [| | repeat split; try discriminate; done].
  - cbn [py_mul mbind outcome_bind py_truediv]. unfold int_truediv.
    change (Z.abs 5) with 5.
    destruct (Z.abs (z * 9) <? float_overflow * 5).
    + cbn [mbind outcome_bind py_add].
      destruct (float_of_int_literal 32) as [c ->]; [lia |].
      cbn [mbind outcome_bind]. repeat split; try discriminate; eauto.
    + cbn [mbind outcome_bind]. repeat split; try discriminate; done.
  - cbn [py_mul].
    destruct (float_of_int_literal 9) as [c9 ->]; [lia |].
    cbn [mbind outcome_bind py_truediv].
    destruct (float_of_int_literal 5) as [c5 ->]; [lia |].
    cbn [mbind outcome_bind py_add].
    destruct (float_of_int_literal 32) as [c32 ->]; [lia |].
    cbn [mbind outcome_bind]. repeat split; try discriminate; eauto.
Qed.

(** What the handler does once the coordinates are known and the two
    clients and the merger have returned. *)
Lemma fetch_and_present_merged (http_json : request → outcome pyval)
    (city country date : string) (lat lon : pyval)
    (forecast1 forecast2 : option (gmap string pyval))
    (forecast : gmap string pyval) :
  get_coordinates http_json city country = Ret (lat, lon) →
  is_None lat = false → is_None lon = false →
  get_weather_open_meteo http_json lat lon date = Ret forecast1 →
  get_weather_openweathermap http_json lat lon API_KEY date = Ret forecast2 →
  calculate_forecast forecast1 forecast2 = Ret forecast →
  fetch_and_present http_json city country date
  = present_forecast city date forecast.
Proof.
  intros Hc Hlat Hlon H1 H2 Hm. unfold fetch_and_present.
  rewrite Hc, lift_bind. cbn [fst snd].
  rewrite Hlat, Hlon. cbn [orb].
  rewrite H1, lift_bind, H2, lift_bind, Hm, lift_bind. reflexivity.
Qed.

(** The ways the handler can go once the inputs are accepted. *)
Lemma fetch_and_present_cases (http_json : request → outcome pyval)
    (city country date : string) :
  (∃ title message,
     fetch_and_present http_json city country date
     = Run [ShowError title message] (Ret tt))
  ∨ (∃ e, fetch_and_present http_json city country date = Run [] (Raise e))
  ∨ (∃ forecast,
       fetch_and_present http_json city country date
       = present_forecast city date forecast).
Proof.
  unfold fetch_and_present. rewrite lift_bind.
  destruct (get_coordinates http_json city country) as [[lat lon] | e];
    [| right; left; eauto].
  cbn [fst snd].
  destruct (is_None lat || is_None lon); [left; eauto |].
  rewrite lift_bind.
  destruct (get_weather_open_meteo http_json lat lon date) as [f1 | e];
    [| right; left; eauto].
  rewrite lift_bind.
  destruct (get_weather_openweathermap http_json lat lon API_KEY date)
    as [f2 | e]; [| right; left; eauto].
  rewrite lift_bind.
  destruct (calculate_forecast f1 f2) as [f | e]; [| right; left; eauto].
  right. right. eauto.
Qed.

(** The ways the part after the merge can go. *)
Lemma present_forecast_cases (city date : string) (forecast : gmap string pyval) :
  present_forecast city date forecast = no_forecast_shown
  ∨ (∃ e, present_forecast city date forecast = Run [] (Raise e))
  ∨ (∃ max_temp min_temp precipitation,
       forecast !! "max_temp" = Some max_temp
       ∧ forecast !! "min_temp" = Some min_temp
       ∧ forecast !! "precipitation" = Some precipitation
       ∧ has_fahrenheit max_temp = true ∧ has_fahrenheit min_temp = true
       ∧ all_None_0 forecast = false
       ∧ present_forecast city date forecast
         = forecast_shown city date max_temp min_temp precipitation).
Proof.
  destruct (all_None_0 forecast) eqn:Hdata.
  { left. by apply present_forecast_no_data. }
  right. rewrite (present_forecast_data _ _ _ Hdata).
  destruct (forecast !! "max_temp") as [mx |]; [| left; eauto].
  destruct (fahrenheit mx) as [fx | e] eqn:Hfx; [| left; eauto].
  destruct (forecast !! "min_temp") as [mn |]; [| left; eauto].
  destruct (fahrenheit mn) as [fn | e] eqn:Hfn; [| left; eauto].
  destruct (forecast !! "precipitation") as [pr |]; [| left; eauto].
  right. exists mx, mn, pr.
  apply (fahrenheit_outcomes mx) in Hfx. apply (fahrenheit_outcomes mn) in Hfn.
  done.
Qed.

Lemma forecast_shown_label (city date : string)
    (max_temp min_temp precipitation : pyval) (a : ui_action) :
  a ∈ shown (forecast_shown city date max_temp min_temp precipitation) →
  a = SetForecastLabel (Forecast city date max_temp min_temp precipitation)
  ∨ ∃ image, a = SetIconImage image.
Proof.
  unfold forecast_shown. destruct (as_number precipitation); cbn [shown].
  - intros Ha. apply elem_of_cons in Ha as [-> | Ha]; [by left |].
    apply list_elem_of_singleton in Ha as ->. right. eauto.
  - intros Ha. apply list_elem_of_singleton in Ha as ->. by left.
Qed.

(** The handler touches the window through error dialogs, the forecast
    label and the icon only, once the inputs are accepted. *)
Lemma fetch_and_present_shown (http_json : request → outcome pyval)
    (city country date : string) (a : ui_action) :
  a ∈ shown (fetch_and_present http_json city country date) →
  (∃ title message, a = ShowError title message)
  ∨ a = SetForecastLabel NoForecastAvailable
  ∨ (∃ forecast max_temp min_temp precipitation,
       present_forecast city date forecast
       = forecast_shown city date max_temp min_temp precipitation
       ∧ fetch_and_present http_json city country date
         = present_forecast city date forecast
       ∧ forecast !! "max_temp" = Some max_temp
       ∧ forecast !! "min_temp" = Some min_temp
       ∧ forecast !! "precipitation" = Some precipitation
       ∧ has_fahrenheit max_temp = true ∧ has_fahrenheit min_temp = true
       ∧ all_None_0 forecast = false
       ∧ a = SetForecastLabel (Forecast city date max_temp min_temp precipitation))
  ∨ (∃ image, a = SetIconImage image).
Proof.
  destruct (fetch_and_present_cases http_json city country date)
    as [(title & message & ->) | [(e & ->) | (forecast & Hfetch)]]; cbn [shown].
  - intros Ha. apply list_elem_of_singleton in Ha. left. eauto.
  - intros Ha. by apply elem_of_nil in Ha.
  - rewrite Hfetch.
    destruct (present_forecast_cases city date forecast)
      as [Hp | [(e & Hp) | (mx & mn & pr & Lx & Ln & Lp & Hx & Hn & Hd & Hp)]];
      rewrite Hp.
    + unfold no_forecast_shown. cbn [shown]. intros Ha.
      apply elem_of_cons in Ha as [-> | Ha]; [tauto |].
      apply list_elem_of_singleton in Ha as ->. right. right. right. eauto.
    + cbn [shown]. intros Ha. by apply elem_of_nil in Ha.
    + intros Ha. apply forecast_shown_label in Ha as [-> | Ha]; [| tauto].
      right. right. left. exists forecast, mx, mn, pr. by rewrite <- Hp.
Qed.

(** X15. The handler shows the input warning, and does nothing else,
    when one of the three fields is blank (empty, or made of white
    space), whatever the day and the network; and on no other path does
    it show a warning. *)
Theorem show_forecast_input_warning (http_json : request → outcome pyval)
    (today : date) (city_entry country_entry date_entry : string) :
  (all_space city_entry || all_space country_entry || all_space date_entry
   = true →
   show_forecast http_json today city_entry country_entry date_entry
   = Run [ShowWarning "Input Error" "Provide all inputs: city, country, date."]
         (Ret tt))
  ∧ (∀ title message,
       ShowWarning title message
       ∈ shown (show_forecast http_json today city_entry country_entry date_entry) →
       all_space city_entry || all_space country_entry || all_space date_entry
       = true).
Proof.
  split.
  - unfold show_forecast. rewrite !strip_empty_iff.
    destruct (all_space city_entry), (all_space country_entry),
      (all_space date_entry); cbn [negb andb orb]; done.
  - intros title message.
    destruct (show_forecast_cases http_json today city_entry country_entry
                date_entry)
      as [[Hblank ->] | [(t & m & ->) | [(e & ->) | [Hacc ->]]]];
      cbn [shown]; intros Ha.
    + exact Hblank.
    + apply list_elem_of_singleton in Ha. discriminate Ha.
    + by apply elem_of_nil in Ha.
    + apply fetch_and_present_shown in Ha
        as [(t & m & Ha) | [Ha | [(f & mx & mn & pr & Ha) | (i & Ha)]]];
        try discriminate Ha.
      destruct Ha as (_ & _ & _ & _ & _ & _ & _ & _ & Ha). discriminate Ha.
Qed.

Lemma show_forecast_input_warning_witness :
  show_forecast (fun _ => Raise RequestException) (mkdate 2024 6 15)
    "Paris" (String (ascii_of_nat 160) " ") "2024-06-16"
  = Run [ShowWarning "Input Error" "Provide all inputs: city, country, date."]
        (Ret tt).
Proof.
  apply (proj1 (show_forecast_input_warning (fun _ => Raise RequestException)
                  (mkdate 2024 6 15) "Paris" (String (ascii_of_nat 160) " ")
                  "2024-06-16")).
  reflexivity.
Defined.

(** X16. With three non-blank fields the validators decide before the
    network plays any part, the date first: a date message is shown as
    the date error whatever the country code and the network, and an
    unknown country code is shown only when the date passes. *)
Theorem show_forecast_validation_error (http_json : request → outcome pyval)
    (today : date) (city_entry country_entry date_entry : string) :
  all_space city_entry = false → all_space country_entry = false →
  all_space date_entry = false →
  (∀ message,
     validate_date today (strip date_entry) = Ret (Some message) →
     show_forecast http_json today city_entry country_entry date_entry
     = Run [ShowError "Date Error" message] (Ret tt))
  ∧ (∀ message,
       validate_date today (strip date_entry) = Ret None →
       validate_phone_country_code (strip country_entry) = Some message →
       show_forecast http_json today city_entry country_entry date_entry
       = Run [ShowError "Country Code Error" message] (Ret tt)).
Proof.
  intros Hc Hk Hd. unfold show_forecast.
  rewrite !strip_empty_iff, Hc, Hk, Hd. cbn [negb andb].
  rewrite lift_bind. split.
  - intros message Hdate. rewrite Hdate.
    by rewrite (reported_validate_date _ _ _ Hdate).
  - intros message Hdate Hcode. rewrite Hdate. cbn [reported].
    by rewrite reported_validate_phone_country_code, Hcode.
Qed.

Lemma show_forecast_validation_error_witness :
  show_forecast (fun _ => Raise RequestException) (mkdate 2024 6 15)
    "Paris" "44" " 2024-06-14 "
  = Run [ShowError "Date Error" PastDate] (Ret tt).
Proof.
  apply (proj1 (show_forecast_validation_error (fun _ => Raise RequestException)
                  (mkdate 2024 6 15) "Paris" "44" " 2024-06-14 "
                  eq_refl eq_refl eq_refl)).
  reflexivity.
Defined.

(** X17. On the 29th of February the handler answers every submission of
    three non-blank fields with the date error and the format message: no
    forecast can be requested that day. *)
Theorem show_forecast_leap_day (http_json : request → outcome pyval)
    (today : date) (city_entry country_entry date_entry : string) :
  valid_date today = true → month today = 2 → day today = 29 →
  all_space city_entry = false → all_space country_entry = false →
  all_space date_entry = false →
  show_forecast http_json today city_entry country_entry date_entry
  = Run [ShowError "Date Error" InvalidFormat] (Ret tt).
Proof.
  intros Hv Hm Hday Hc Hk Hd. unfold show_forecast.
  rewrite !strip_empty_iff, Hc, Hk, Hd. cbn [negb andb].
  rewrite (validate_date_replace_fails today (strip date_entry)
             (replace_year_leap_day today Hv Hm Hday)).
  reflexivity.
Qed.

Lemma show_forecast_leap_day_witness :
  show_forecast (fun _ => Raise RequestException) (mkdate 2024 2 29)
    "Paris" "44" "2024-03-01"
  = Run [ShowError "Date Error" InvalidFormat] (Ret tt).
Proof.
  apply (show_forecast_leap_day (fun _ => Raise RequestException)
           (mkdate 2024 2 29) "Paris" "44" "2024-03-01"); reflexivity.
Defined.

(** X18. With accepted inputs, a geocoding response without results (no
    [results] member, or an empty one) is reported as the location error
    naming the stripped city and country, and nothing else is shown. *)
Theorem show_forecast_location_error (http_json : request → outcome pyval)
    (today : date) (city_entry country_entry date_entry : string)
    (data : gmap string pyval) :
  inputs_accepted today city_entry country_entry date_entry = true →
  http_json (GeocodingSearch (strip city_entry) (strip country_entry))
  = Ret (PDict data) →
  truthy (dict_get data "results") = false →
  show_forecast http_json today city_entry country_entry date_entry
  = Run [ShowError "Location Error"
           (location_error (strip city_entry) (strip country_entry))] (Ret tt).
Proof.
  intros Hacc Hresp Hres.
  rewrite (show_forecast_accepted _ _ _ _ _ Hacc). unfold fetch_and_present.
  by rewrite (get_coordinates_no_results _ _ _ _ Hresp Hres).
Qed.

Lemma show_forecast_location_error_witness :
  show_forecast empty_response (mkdate 2024 6 15)
    ("Atlantis" +:+ String (ascii_of_nat 160) "") "44" "2024-06-16"
  = Run [ShowError "Location Error"
           "Could not find coordinates for 'Atlantis, 44'."] (Ret tt).
Proof.
  apply (show_forecast_location_error empty_response (mkdate 2024 6 15)
           ("Atlantis" +:+ String (ascii_of_nat 160) "") "44" "2024-06-16" ∅);
    reflexivity.
Defined.

(** X19. With accepted inputs, an exception of the geocoding request is
    not handled anywhere: the handler itself raises it, and shows
    nothing. *)
Theorem show_forecast_geocoding_failure (http_json : request → outcome pyval)
    (today : date) (city_entry country_entry date_entry : string) (e : exn) :
  inputs_accepted today city_entry country_entry date_entry = true →
  http_json (GeocodingSearch (strip city_entry) (strip country_entry))
  = Raise e →
  show_forecast http_json today city_entry country_entry date_entry
  = Run [] (Raise e).
Proof.
  intros Hacc Hresp.
  rewrite (show_forecast_accepted _ _ _ _ _ Hacc).
  unfold fetch_and_present, get_coordinates. by rewrite Hresp.
Qed.

Lemma show_forecast_geocoding_failure_witness :
  show_forecast (fun _ => Raise RequestException) (mkdate 2024 6 15)
    "Paris" "44" "2024-06-16"
  = Run [] (Raise RequestException).
Proof.
  apply (show_forecast_geocoding_failure (fun _ => Raise RequestException)
           (mkdate 2024 6 15) "Paris" "44" "2024-06-16"); reflexivity.
Defined.

(** X20. With accepted inputs and coordinates found, when both forecast
    requests fail the handler shows "No forecast available." and clears
    the icon: the two absent forecasts merge to the zero-filled one, which
    the handler treats as no data. *)
Theorem show_forecast_both_sources_fail (http_json : request → outcome pyval)
    (today : date) (city_entry country_entry date_entry : string)
    (lat lon : pyval) :
  inputs_accepted today city_entry country_entry date_entry = true →
  get_coordinates http_json (strip city_entry) (strip country_entry)
  = Ret (lat, lon) →
  is_None lat = false → is_None lon = false →
  http_json (OpenMeteoForecast lat lon (strip date_entry))
  = Raise RequestException →
  http_json (OneCallTimemachine lat lon API_KEY (strip date_entry))
  = Raise RequestException →
  show_forecast http_json today city_entry country_entry date_entry
  = Run [SetForecastLabel NoForecastAvailable; SetIconImage None] (Ret tt).
Proof.
  intros Hacc Hc Hlat Hlon HA HB.
  rewrite (show_forecast_accepted _ _ _ _ _ Hacc).
  rewrite (fetch_and_present_merged _ _ _ _ lat lon None None zero_forecast
             Hc Hlat Hlon).
  - by apply present_forecast_no_data.
  - unfold get_weather_open_meteo, get_weather_open_meteo_try. by rewrite HA.
  - unfold get_weather_openweathermap, get_weather_openweathermap_try.
    by rewrite HB.
  - reflexivity.
Qed.

Lemma show_forecast_both_sources_fail_witness :
  show_forecast (network (Raise RequestException) (Raise RequestException))
    (mkdate 2024 6 15) "Bengaluru" "91" "2024-06-16"
  = Run [SetForecastLabel NoForecastAvailable; SetIconImage None] (Ret tt).
Proof.
  apply (show_forecast_both_sources_fail
           (network (Raise RequestException) (Raise RequestException))
           (mkdate 2024 6 15) "Bengaluru" "91" "2024-06-16"
           (PFloat 12.97) (PFloat 77.59));
    reflexivity.
Defined.

(** X21. With accepted inputs and coordinates found, a merged forecast
    whose three fields are all [None] or zero is shown as "No forecast
    available.", also when the zeros are what the sources reported. *)
Theorem show_forecast_zero_forecast (http_json : request → outcome pyval)
    (today : date) (city_entry country_entry date_entry : string)
    (lat lon : pyval) (forecast1 forecast2 : option (gmap string pyval))
    (forecast : gmap string pyval) :
  inputs_accepted today city_entry country_entry date_entry = true →
  get_coordinates http_json (strip city_entry) (strip country_entry)
  = Ret (lat, lon) →
  is_None lat = false → is_None lon = false →
  get_weather_open_meteo http_json lat lon (strip date_entry) = Ret forecast1 →
  get_weather_openweathermap http_json lat lon API_KEY (strip date_entry)
  = Ret forecast2 →
  calculate_forecast forecast1 forecast2 = Ret forecast →
  all_None_0 forecast = true →
  show_forecast http_json today city_entry country_entry date_entry
  = Run [SetForecastLabel NoForecastAvailable; SetIconImage None] (Ret tt).
Proof.
  intros Hacc Hc Hlat Hlon H1 H2 Hm Hzero.
  rewrite (show_forecast_accepted _ _ _ _ _ Hacc).
  rewrite (fetch_and_present_merged _ _ _ _ _ _ _ _ _ Hc Hlat Hlon H1 H2 Hm).
  by apply present_forecast_no_data.
Qed.

Lemma show_forecast_zero_forecast_witness :
  show_forecast (network (Ret (daily_response (PFloat 0) (PFloat 0) (PFloat 0)))
                         (Raise RequestException))
    (mkdate 2024 6 15) "Bengaluru" "91" "2024-06-16"
  = Run [SetForecastLabel NoForecastAvailable; SetIconImage None] (Ret tt).
Proof.
  apply (show_forecast_zero_forecast
           (network (Ret (daily_response (PFloat 0) (PFloat 0) (PFloat 0)))
                    (Raise RequestException))
           (mkdate 2024 6 15) "Bengaluru" "91" "2024-06-16"
           (PFloat 12.97) (PFloat 77.59)
           (Some (make_forecast (PFloat 0) (PFloat 0) (PFloat 0))) None
           (make_forecast (PFloat 0) (PFloat 0) (PFloat 0)));
    reflexivity.
Defined.

(** X22. With accepted inputs and coordinates found, a merged forecast
    that is not all [None] or zero makes the handler raise while it builds
    the text of the label, before anything is shown, when its [max_temp]
    has no value in degrees Fahrenheit: [TypeError] when it is not a
    number, [OverflowError] when it is an int past the float range. *)
Theorem show_forecast_text_failure (http_json : request → outcome pyval)
    (today : date) (city_entry country_entry date_entry : string)
    (lat lon : pyval) (forecast1 forecast2 : option (gmap string pyval))
    (forecast : gmap string pyval) (max_temp : pyval) :
  inputs_accepted today city_entry country_entry date_entry = true →
  get_coordinates http_json (strip city_entry) (strip country_entry)
  = Ret (lat, lon) →
  is_None lat = false → is_None lon = false →
  get_weather_open_meteo http_json lat lon (strip date_entry) = Ret forecast1 →
  get_weather_openweathermap http_json lat lon API_KEY (strip date_entry)
  = Ret forecast2 →
  calculate_forecast forecast1 forecast2 = Ret forecast →
  all_None_0 forecast = false →
  forecast !! "max_temp" = Some max_temp →
  (is_number max_temp = false →
   show_forecast http_json today city_entry country_entry date_entry
   = Run [] (Raise TypeError))
  ∧ (is_number max_temp = true → has_fahrenheit max_temp = false →
     show_forecast http_json today city_entry country_entry date_entry
     = Run [] (Raise OverflowError)).
Proof.
  intros Hacc Hc Hlat Hlon H1 H2 Hm Hdata Hmax.
  rewrite (show_forecast_accepted _ _ _ _ _ Hacc).
  rewrite (fetch_and_present_merged _ _ _ _ _ _ _ _ _ Hc Hlat Hlon H1 H2 Hm).
  rewrite (present_forecast_data _ _ _ Hdata), Hmax.
  destruct (fahrenheit_outcomes max_temp) as (_ & Htype & Hover & _).
  split.
  - intros Hnot. by rewrite (Htype Hnot).
  - intros Hnum Hbig. by rewrite (Hover Hnum Hbig).
Qed.

Lemma show_forecast_text_failure_witness :
  show_forecast
    (network (Raise RequestException)
       (Ret (PDict {[ "current" := PDict {[ "rain" := PDict {[ "1h" := num 3 ]} ]} ]})))
    (mkdate 2024 6 15) "Bengaluru" "91" "2024-06-16"
  = Run [] (Raise TypeError).
Proof.
  apply (show_forecast_text_failure
           (network (Raise RequestException)
              (Ret (PDict {[ "current" := PDict {[ "rain" := PDict {[ "1h" := num 3 ]} ]} ]})))
           (mkdate 2024 6 15) "Bengaluru" "91" "2024-06-16"
           (PFloat 12.97) (PFloat 77.59)
           None (Some (make_forecast PNone PNone (num 3)))
           (make_forecast PNone PNone (num 3)) PNone);
    reflexivity.
Defined.

(** X23. With accepted inputs and coordinates found, a merged forecast
    that is not all [None] or zero, whose temperatures have a value in
    degrees Fahrenheit and whose precipitation is a number, is shown with
    exactly its three values, under the stripped city and date, and then
    the icon is set to the one chosen from the merged precipitation. *)
Theorem show_forecast_shows_merged (http_json : request → outcome pyval)
    (today : date) (city_entry country_entry date_entry : string)
    (lat lon : pyval) (forecast1 forecast2 : option (gmap string pyval))
    (forecast : gmap string pyval) (max_temp min_temp precipitation : pyval)
    (p : number) :
  inputs_accepted today city_entry country_entry date_entry = true →
  get_coordinates http_json (strip city_entry) (strip country_entry)
  = Ret (lat, lon) →
  is_None lat = false → is_None lon = false →
  get_weather_open_meteo http_json lat lon (strip date_entry) = Ret forecast1 →
  get_weather_openweathermap http_json lat lon API_KEY (strip date_entry)
  = Ret forecast2 →
  calculate_forecast forecast1 forecast2 = Ret forecast →
  all_None_0 forecast = false →
  forecast !! "max_temp" = Some max_temp →
  forecast !! "min_temp" = Some min_temp →
  forecast !! "precipitation" = Some precipitation →
  has_fahrenheit max_temp = true → has_fahrenheit min_temp = true →
  as_number precipitation = Some p →
  show_forecast http_json today city_entry country_entry date_entry
  = Run [SetForecastLabel
           (Forecast (strip city_entry) (strip date_entry)
              max_temp min_temp precipitation);
         SetIconImage (Some (get_weather_icon p))] (Ret tt).
Proof.
  intros Hacc Hc Hlat Hlon H1 H2 Hm Hdata Lx Ln Lp Hx Hn Hp.
  rewrite (show_forecast_accepted _ _ _ _ _ Hacc).
  rewrite (fetch_and_present_merged _ _ _ _ _ _ _ _ _ Hc Hlat Hlon H1 H2 Hm).
  rewrite (present_forecast_data _ _ _ Hdata), Lx, Ln, Lp.
  destruct (proj1 (fahrenheit_outcomes max_temp) Hx) as [fx ->].
  destruct (proj1 (fahrenheit_outcomes min_temp) Hn) as [fn ->].
  unfold forecast_shown. by rewrite Hp.
Qed.

Lemma show_forecast_shows_merged_witness :
  show_forecast (network (Ret (daily_response (PFloat 30.5) (num 20) (PFloat 0)))
                         (Raise RequestException))
    (mkdate 2024 6 15) " Bengaluru" "91" "2024-06-16"
  = Run [SetForecastLabel
           (Forecast "Bengaluru" "2024-06-16" (PFloat 30.5) (num 20) (PFloat 0));
         SetIconImage (Some "sun.png")] (Ret tt).
Proof.
  apply (show_forecast_shows_merged
           (network (Ret (daily_response (PFloat 30.5) (num 20) (PFloat 0)))
                    (Raise RequestException))
           (mkdate 2024 6 15) " Bengaluru" "91" "2024-06-16"
           (PFloat 12.97) (PFloat 77.59)
           (Some (make_forecast (PFloat 30.5) (num 20) (PFloat 0))) None
           (make_forecast (PFloat 30.5) (num 20) (PFloat 0))
           (PFloat 30.5) (num 20) (PFloat 0) (NFloat 0));
    reflexivity.
Defined.

(** X25. With accepted inputs and coordinates found, a merged forecast
    that is not all [None] or zero, whose temperatures have a value in
    degrees Fahrenheit but whose precipitation is not a number ([None],
    for one), leaves the window half updated: the label is set to the
    forecast text, then choosing the icon raises [TypeError] and the icon
    is not touched. *)
Theorem show_forecast_icon_failure (http_json : request → outcome pyval)
    (today : date) (city_entry country_entry date_entry : string)
    (lat lon : pyval) (forecast1 forecast2 : option (gmap string pyval))
    (forecast : gmap string pyval) (max_temp min_temp precipitation : pyval) :
  inputs_accepted today city_entry country_entry date_entry = true →
  get_coordinates http_json (strip city_entry) (strip country_entry)
  = Ret (lat, lon) →
  is_None lat = false → is_None lon = false →
  get_weather_open_meteo http_json lat lon (strip date_entry) = Ret forecast1 →
  get_weather_openweathermap http_json lat lon API_KEY (strip date_entry)
  = Ret forecast2 →
  calculate_forecast forecast1 forecast2 = Ret forecast →
  all_None_0 forecast = false →
  forecast !! "max_temp" = Some max_temp →
  forecast !! "min_temp" = Some min_temp →
  forecast !! "precipitation" = Some precipitation →
  has_fahrenheit max_temp = true → has_fahrenheit min_temp = true →
  is_number precipitation = false →
  show_forecast http_json today city_entry country_entry date_entry
  = Run [SetForecastLabel
           (Forecast (strip city_entry) (strip date_entry)
              max_temp min_temp precipitation)] (Raise TypeError).
Proof.
  intros Hacc Hc Hlat Hlon H1 H2 Hm Hdata Lx Ln Lp Hx Hn Hp.
  rewrite (show_forecast_accepted _ _ _ _ _ Hacc).
  rewrite (fetch_and_present_merged _ _ _ _ _ _ _ _ _ Hc Hlat Hlon H1 H2 Hm).
  rewrite (present_forecast_data _ _ _ Hdata), Lx, Ln, Lp.
  destruct (proj1 (fahrenheit_outcomes max_temp) Hx) as [fx ->].
  destruct (proj1 (fahrenheit_outcomes min_temp) Hn) as [fn ->].
  unfold forecast_shown. unfold is_number in Hp.
  by destruct (as_number precipitation).
Qed.

Lemma show_forecast_icon_failure_witness :
  show_forecast (network (Ret (daily_response (num 30) (num 20) PNone))
                         (Raise RequestException))
    (mkdate 2024 6 15) "Bengaluru" "91" "2024-06-16"
  = Run [SetForecastLabel
           (Forecast "Bengaluru" "2024-06-16" (num 30) (num 20) PNone)]
        (Raise TypeError).
Proof.
  apply (show_forecast_icon_failure
           (network (Ret (daily_response (num 30) (num 20) PNone))
                    (Raise RequestException))
           (mkdate 2024 6 15) "Bengaluru" "91" "2024-06-16"
           (PFloat 12.97) (PFloat 77.59)
           (Some (make_forecast (num 30) (num 20) PNone)) None
           (make_forecast (num 30) (num 20) PNone)
           (num 30) (num 20) PNone);
    reflexivity.
Defined.

(** X24. Whenever the handler sets the label to a forecast text, the
    inputs were accepted, the city and the date in the text are the
    stripped entries, both temperatures have a value in degrees
    Fahrenheit, and the three values are not all [None] or zero. The rest
    of the run is then fixed by the precipitation: when it is a number the
    icon chosen for it is set and the handler returns, and otherwise the
    handler raises [TypeError] with the label set and the icon
    untouched. *)
Theorem show_forecast_shown (http_json : request → outcome pyval)
    (today : date) (city_entry country_entry date_entry : string)
    (city date : string) (max_temp min_temp precipitation : pyval) :
  SetForecastLabel (Forecast city date max_temp min_temp precipitation)
  ∈ shown (show_forecast http_json today city_entry country_entry date_entry) →
  inputs_accepted today city_entry country_entry date_entry = true
  ∧ city = strip city_entry ∧ date = strip date_entry
  ∧ has_fahrenheit max_temp = true ∧ has_fahrenheit min_temp = true
  ∧ in_None_0 max_temp && in_None_0 min_temp && in_None_0 precipitation = false
  ∧ show_forecast http_json today city_entry country_entry date_entry
    = match as_number precipitation with
      | Some p =>
          Run [SetForecastLabel (Forecast city date max_temp min_temp precipitation);
               SetIconImage (Some (get_weather_icon p))] (Ret tt)
      | None =>
          Run [SetForecastLabel (Forecast city date max_temp min_temp precipitation)]
              (Raise TypeError)
      end.
Proof.
  destruct (show_forecast_cases http_json today city_entry country_entry
              date_entry)
    as [[Hblank ->] | [(t & m & ->) | [(e & ->) | [Hacc ->]]]]; cbn [shown].
  - intros Ha. apply list_elem_of_singleton in Ha. discriminate Ha.
  - intros Ha. apply list_elem_of_singleton in Ha. discriminate Ha.
  - intros Ha. by apply elem_of_nil in Ha.
  - intros Ha.
    apply fetch_and_present_shown in Ha
      as [(t & m & Ha) | [Ha | [(f & mx & mn & pr & Ha) | (i & Ha)]]];
      try discriminate Ha.
    destruct Ha as (Hp & Hfetch & Lx & Ln & Lp & Hx & Hn & Hdata & Ha).
    injection Ha as -> -> -> -> ->.
    rewrite Hfetch, Hp. repeat split; try done.
    rewrite <- all_None_0_unfold in Hdata. unfold dict_get in Hdata.
    by rewrite Lx, Ln, Lp in Hdata.
Qed.

Lemma show_forecast_shown_witness :
  inputs_accepted (mkdate 2024 6 15) " Bengaluru" "91" "2024-06-16" = true
  ∧ has_fahrenheit (num 30) = true.
Proof.
  destruct (show_forecast_shown
              (network (Ret (daily_response (num 30) (num 20) PNone))
                       (Raise RequestException))
              (mkdate 2024 6 15) " Bengaluru" "91" "2024-06-16"
              "Bengaluru" "2024-06-16" (num 30) (num 20) PNone)
    as (Hacc & _ & _ & Hx & _).
  - assert (H : shown (show_forecast
                         (network (Ret (daily_response (num 30) (num 20) PNone))
                                  (Raise RequestException))
                         (mkdate 2024 6 15) " Bengaluru" "91" "2024-06-16")
                = [SetForecastLabel
                     (Forecast "Bengaluru" "2024-06-16" (num 30) (num 20) PNone)])
      by (by vm_compute).
    rewrite H. apply list_elem_of_singleton. reflexivity.
  - split; [exact Hacc | exact Hx].
Defined.
